(** * sims2_4k_ui_converter: a shallow embedding and its properties

    The converter rewrites the geometry of [.uiScript] files, the point sizes
    of [FontStyle.ini], resamples graphics through an external tool and packs
    the result into a DBPF package.  The functions of
    [sims2_4k_ui_converter.py] are embedded below as Rocq functions:

    - text is a [string]: a sequence of characters with code points below 256;
    - Python integers are [Z] (unbounded; the interpreter's optional limit on
      the number of digits of a conversion is not modelled);
    - an exception is the [Raise] case of [result];
    - the file system is a partial map from paths to contents, threaded
      explicitly through the functions that touch it. *)

From Stdlib Require Import Bool Arith ZArith Lia List Ascii String.
From Stdlib Require Import Decimal DecimalString DecimalZ DecimalPos.
From Stdlib Require Hexadecimal HexadecimalString.
From Stdlib Require Strings.Byte.
Import ListNotations.

Local Open Scope list_scope.
Local Open Scope string_scope.

Set Implicit Arguments.

(** ** Exceptions *)

Inductive exn : Type :=
| ValueError
| IndexError
| FileNotFoundError
| SameFileError.

Inductive result (A : Type) : Type :=
| Ok (a : A)
| Raise (e : exn).

Arguments Ok {A} a.
Arguments Raise {A} e.

Definition bind {A B : Type} (r : result A) (k : A -> result B) : result B :=
  match r with
  | Ok a => k a
  | Raise e => Raise e
  end.

Notation "x <- r ;; k" := (bind r (fun x => k))
  (at level 61, r at next level, right associativity).

Definition is_ok {A : Type} (r : result A) : bool :=
  match r with Ok _ => true | Raise _ => false end.

(** ** The string methods the converter calls *)

Module Py.

(** [s.startswith(p)] *)
Fixpoint startswith (p s : string) : bool :=
  match p, s with
  | EmptyString, _ => true
  | String _ _, EmptyString => false
  | String a p', String b s' => Ascii.eqb a b && startswith p' s'
  end.

(** [sub in s] *)
Fixpoint contains (sub s : string) : bool :=
  startswith sub s ||
  match s with
  | EmptyString => false
  | String _ s' => contains sub s'
  end.

(** The text of [s] after its first [n] characters: [s[n:]]. *)
Fixpoint drop (n : nat) (s : string) : string :=
  match n, s with
  | O, _ => s
  | S _, EmptyString => EmptyString
  | S k, String _ s' => drop k s'
  end.

(** [s.endswith(p)] *)
Definition endswith (p s : string) : bool :=
  (length p <=? length s)%nat &&
  String.eqb (drop (length s - length p) s) p.

(** [s.split(sep)] for a non-empty [sep]: the pieces between the
    non-overlapping occurrences of [sep], found from the left.  [skip] counts
    the characters of a separator still to be passed over, [cur] is the piece
    being collected. *)
Fixpoint split_go (sep : string) (skip : nat) (cur s : string) : list string :=
  match s with
  | EmptyString => [cur]
  | String c s' =>
      match skip with
      | S k => split_go sep k cur s'
      | O =>
          if startswith sep s
          then cur :: split_go sep (length sep - 1) EmptyString s'
          else split_go sep 0 (cur ++ String c EmptyString) s'
      end
  end.

Definition split (sep s : string) : list string :=
  split_go sep 0 EmptyString s.

(** [sep.join(parts)] *)
Fixpoint join (sep : string) (parts : list string) : string :=
  match parts with
  | [] => EmptyString
  | [p] => p
  | p :: ps => p ++ sep ++ join sep ps
  end.

(** [s.replace(old, new)]: every non-overlapping occurrence of [old], found
    from the left, becomes [new]. *)
Fixpoint replace_go (old new : string) (skip : nat) (s : string) : string :=
  match s with
  | EmptyString => EmptyString
  | String c s' =>
      match skip with
      | S k => replace_go old new k s'
      | O =>
          if startswith old s
          then new ++ replace_go old new (length old - 1) s'
          else String c (replace_go old new 0 s')
      end
  end.

(** With an empty [old], [new] is put before every character and at the
    end. *)
Fixpoint intersperse (new s : string) : string :=
  match s with
  | EmptyString => EmptyString
  | String c s' => String c (new ++ intersperse new s')
  end.

Definition replace (old new s : string) : string :=
  match old with
  | EmptyString => new ++ intersperse new s
  | String _ _ => replace_go old new 0 s
  end.

(** White space as [str.strip] sees it, for code points below 256. *)
Definition isspace (c : ascii) : bool :=
  let n := nat_of_ascii c in
  ((9 <=? n) && (n <=? 13) || (28 <=? n) && (n <=? 32)
   || (n =? 133) || (n =? 160))%nat.

(** White space as [int] skips it: the separators 28..31 are not accepted. *)
Definition int_space (c : ascii) : bool :=
  let n := nat_of_ascii c in
  ((9 <=? n) && (n <=? 13) || (n =? 32) || (n =? 133) || (n =? 160))%nat.

Fixpoint lstrip_by (sp : ascii -> bool) (s : string) : string :=
  match s with
  | EmptyString => EmptyString
  | String c s' => if sp c then lstrip_by sp s' else s
  end.

Fixpoint rstrip_by (sp : ascii -> bool) (s : string) : string :=
  match s with
  | EmptyString => EmptyString
  | String c s' =>
      match rstrip_by sp s' with
      | EmptyString => if sp c then EmptyString else String c EmptyString
      | r => String c r
      end
  end.

Definition strip_by (sp : ascii -> bool) (s : string) : string :=
  rstrip_by sp (lstrip_by sp s).

(** [s.strip()] *)
Definition strip (s : string) : string := strip_by isspace s.

(** One decimal digit, as the constructor it adds in front of a numeral. *)
Definition digit_of_char (c : ascii) : option (uint -> uint) :=
  match c with
  | "0" => Some D0
  | "1" => Some D1
  | "2" => Some D2
  | "3" => Some D3
  | "4" => Some D4
  | "5" => Some D5
  | "6" => Some D6
  | "7" => Some D7
  | "8" => Some D8
  | "9" => Some D9
  | _ => None
  end%char.

(** The digits of an integer literal: at least one digit, single
    underscores allowed between digits only.  [after_digit] tells whether the
    previous character was a digit. *)
Fixpoint parse_digits (after_digit : bool) (s : string) : option uint :=
  match s with
  | EmptyString => if after_digit then Some Nil else None
  | String c s' =>
      if Ascii.eqb c "_"
      then (if after_digit then parse_digits false s' else None)
      else match digit_of_char c with
           | Some d => option_map d (parse_digits true s')
           | None => None
           end
  end.

(** [int(s)]: surrounding white space, an optional sign, then the digits. *)
Definition int (s : string) : result Z :=
  let t := strip_by int_space s in
  let signed (neg : bool) (digits : string) : result Z :=
    match parse_digits false digits with
    | Some u => Ok (if neg then Z.opp (Z.of_uint u) else Z.of_uint u)
    | None => Raise ValueError
    end in
  match t with
  | String "+" r => signed false r
  | String "-" r => signed true r
  | _ => signed false t
  end.

(** [str(n)] *)
Definition str (n : Z) : string := NilZero.string_of_int (Z.to_int n).

(** [hex(n)] *)
Definition hex (n : Z) : string :=
  (if (n <? 0)%Z then "-0x" else "0x")
  ++ HexadecimalString.NilZero.string_of_uint (N.to_hex_uint (Z.abs_N n)).

(** [f.readlines()] on a text: the lines, each with its newline. *)
Fixpoint readlines_go (cur s : string) : list string :=
  match s with
  | EmptyString =>
      match cur with
      | EmptyString => []
      | _ => [cur]
      end
  | String c s' =>
      if Ascii.eqb c "010"
      then (cur ++ String c EmptyString) :: readlines_go EmptyString s'
      else readlines_go (cur ++ String c EmptyString) s'
  end.

Definition readlines (text : string) : list string :=
  readlines_go EmptyString text.

End Py.

(** ** Helpers for lists and paths *)

(** [l[i]], raising [IndexError] out of range. *)
Definition item {A : Type} (l : list A) (i : nat) : result A :=
  match nth_error l i with
  | Some a => Ok a
  | None => Raise IndexError
  end.

(** [l[i] = x] for an index in range (out of range the list is kept; the
    converter only assigns after checking the length). *)
Fixpoint set_item {A : Type} (l : list A) (i : nat) (x : A) : list A :=
  match l, i with
  | [], _ => []
  | _ :: t, O => x :: t
  | h :: t, S k => h :: set_item t k x
  end.

(** [x in l] for a list of strings. *)
Fixpoint mem (x : string) (l : list string) : bool :=
  match l with
  | [] => false
  | y :: t => String.eqb y x || mem x t
  end.

(** A string of one character; the quote and the newline. *)
Definition char (c : ascii) : string := String c EmptyString.
Definition quote : string := char "034".
Definition nl : string := char "010".

(** [os.path.join(a, b)] on POSIX paths. *)
Definition path_join (a b : string) : string :=
  if Py.startswith "/" b then b
  else match a with
       | EmptyString => b
       | _ => if Py.endswith "/" a then a ++ b else a ++ "/" ++ b
       end.

(** ** The settings object [PROPS] *)

Record Properties : Type := {
  UI_ZOOM_FACTOR : Z;
  FONT_INCREASE_PT : Z;
  UPSCALE_FILTER : string;
  INPUT_DIR : string;
  TEMP_DIR : string;
  OUTPUT_DIR : string
}.

(** ** The file system *)

(** The files, by path.  Graphics are read as [bytes]; the font table, the
    scripts and the sidecars are read as text, and their contents are the
    text that reading them returns. *)
Definition filesystem (A : Type) : Type := string -> option A.

Definition fs_write {A : Type} (fs : filesystem A) (path : string) (data : A)
  : filesystem A :=
  fun p => if String.eqb p path then Some data else fs p.

Definition fs_delete {A : Type} (fs : filesystem A) (path : string)
  : filesystem A :=
  fun p => if String.eqb p path then None else fs p.

(** [os.path.exists(path)] *)
Definition exists_ {A : Type} (fs : filesystem A) (path : string) : bool :=
  match fs path with Some _ => true | None => false end.

(** [open(path).read()] *)
Definition read {A : Type} (fs : filesystem A) (path : string) : result A :=
  match fs path with
  | Some data => Ok data
  | None => Raise FileNotFoundError
  end.

(** [os.remove(path)] *)
Definition os_remove {A : Type} (fs : filesystem A) (path : string)
  : result (filesystem A) :=
  match fs path with
  | Some _ => Ok (fs_delete fs path)
  | None => Raise FileNotFoundError
  end.

(** [os.rename(src, dst)] on POSIX: an existing [dst] is replaced, and
    renaming a file to itself does nothing. *)
Definition os_rename {A : Type} (fs : filesystem A) (src dst : string)
  : result (filesystem A) :=
  match fs src with
  | Some data =>
      if String.eqb src dst then Ok fs
      else Ok (fs_write (fs_delete fs src) dst data)
  | None => Raise FileNotFoundError
  end.

(** [shutil.copy(src, dst)] for a [dst] that is a file name. *)
Definition shutil_copy {A : Type} (fs : filesystem A) (src dst : string)
  : result (filesystem A) :=
  match fs src with
  | Some data =>
      if String.eqb src dst then Raise SameFileError
      else Ok (fs_write fs dst data)
  | None => Raise FileNotFoundError
  end.

(** ** [filter_files_by_type]: classification of graphics by leading bytes *)

Definition bytes : Type := list Byte.byte.

Fixpoint bytes_eqb (a b : bytes) : bool :=
  match a, b with
  | [], [] => true
  | x :: a', y :: b' => Byte.eqb x y && bytes_eqb a' b'
  | _, _ => false
  end.

(** [x in l] for byte strings. *)
Definition bytes_in (x : bytes) (l : list bytes) : bool :=
  existsb (bytes_eqb x) l.

(** The keys of the dictionary that [filter_files_by_type] returns. *)
Inductive file_type : Type := bmp | jpg | png | tga | unknown.

(** The signatures, as the byte literals of the source. *)
Definition sig_tga_2 : bytes := [Byte.x00; Byte.x00; Byte.x02].
Definition sig_tga_10 : bytes := [Byte.x00; Byte.x00; Byte.x0a].
Definition sig_bmp : bytes := [Byte.x42; Byte.x4d].
Definition sig_jpg : bytes := [Byte.xff; Byte.xd8; Byte.xff].
Definition sig_png : bytes := [Byte.x89; Byte.x50; Byte.x4e; Byte.x47].

(** The body of the loop: [start = f.read()[:4]] and the chain of tests. *)
Definition sniff (data : bytes) : file_type :=
  let start := firstn 4 data in
  if bytes_in (firstn 3 start) [sig_tga_2; sig_tga_10] then tga
  else if bytes_eqb (firstn 2 start) sig_bmp then bmp
  else if bytes_eqb (firstn 3 start) sig_jpg then jpg
  else if bytes_eqb (firstn 4 start) sig_png then png
  else unknown.

(** The five lists of paths, one per key. *)
Record file_types : Type := {
  ft_bmp : list string;
  ft_jpg : list string;
  ft_png : list string;
  ft_tga : list string;
  ft_unknown : list string
}.

Definition no_files : file_types :=
  {| ft_bmp := []; ft_jpg := []; ft_png := []; ft_tga := [];
     ft_unknown := [] |}.

(** [d[t]] *)
Definition bucket (t : file_type) (d : file_types) : list string :=
  match t with
  | bmp => ft_bmp d
  | jpg => ft_jpg d
  | png => ft_png d
  | tga => ft_tga d
  | unknown => ft_unknown d
  end.

(** [d[t].append(path)] *)
Definition bucket_append (t : file_type) (path : string) (d : file_types)
  : file_types :=
  match t with
  | bmp => {| ft_bmp := ft_bmp d ++ [path]; ft_jpg := ft_jpg d;
              ft_png := ft_png d; ft_tga := ft_tga d;
              ft_unknown := ft_unknown d |}
  | jpg => {| ft_bmp := ft_bmp d; ft_jpg := ft_jpg d ++ [path];
              ft_png := ft_png d; ft_tga := ft_tga d;
              ft_unknown := ft_unknown d |}
  | png => {| ft_bmp := ft_bmp d; ft_jpg := ft_jpg d;
              ft_png := ft_png d ++ [path]; ft_tga := ft_tga d;
              ft_unknown := ft_unknown d |}
  | tga => {| ft_bmp := ft_bmp d; ft_jpg := ft_jpg d;
              ft_png := ft_png d; ft_tga := ft_tga d ++ [path];
              ft_unknown := ft_unknown d |}
  | unknown => {| ft_bmp := ft_bmp d; ft_jpg := ft_jpg d;
                  ft_png := ft_png d; ft_tga := ft_tga d;
                  ft_unknown := ft_unknown d ++ [path] |}
  end.

Fixpoint filter_files_loop (fs : filesystem bytes) (files : list string)
  (d : file_types) : result file_types :=
  match files with
  | [] => Ok d
  | path :: rest =>
      data <- read fs path ;;
      filter_files_loop fs rest (bucket_append (sniff data) path d)
  end.

Definition filter_files_by_type (fs : filesystem bytes) (files : list string)
  : result file_types :=
  filter_files_loop fs files no_files.

(** ** [upscale_fontstyle_ini]: the font table *)

(** One iteration of the loop over the lines: the line that is appended to
    [output]. *)
Definition upscale_fontstyle_line (props : Properties) (line : string)
  : result string :=
  let parts := Py.split quote line in
  if (List.length parts <? 6)%nat then Ok line
  else
    old_size <- item parts 3 ;;
    n <- Py.int old_size ;;
    let new_size := (n * UI_ZOOM_FACTOR props + FONT_INCREASE_PT props)%Z in
    Ok (Py.join quote (set_item parts 3 (Py.str new_size))).

Fixpoint upscale_fontstyle_lines (props : Properties)
  (lines output : list string) : result (list string) :=
  match lines with
  | [] => Ok output
  | line :: rest =>
      new_line <- upscale_fontstyle_line props line ;;
      upscale_fontstyle_lines props rest (output ++ [new_line])
  end.

(** The whole function on a file system of texts: the new file system and
    what was printed. *)
Definition upscale_fontstyle_ini (props : Properties) (fs : filesystem string)
  : result (filesystem string * list string) :=
  let in_path := path_join (INPUT_DIR props) "FontStyle.ini" in
  let out_path := path_join (OUTPUT_DIR props) "FontStyle.ini" in
  if negb (exists_ fs in_path)
  then Ok (fs, ["Skipping FontStyle.ini as not present in 'input' folder"])
  else
    text <- read fs in_path ;;
    output <- upscale_fontstyle_lines props (Py.readlines text) [] ;;
    Ok (fs_write fs out_path (Py.join "" output),
        [String "010" "Written new FontStyle.ini"]).

(** ** [upscale_uiscripts]: the geometry of the user-interface scripts *)

(** [for number in values.split(","): new_values.append(...)] *)
Fixpoint scale_numbers (props : Properties) (numbers new_values : list string)
  : result (list string) :=
  match numbers with
  | [] => Ok new_values
  | number :: rest =>
      n <- Py.int number ;;
      scale_numbers props rest
        (new_values ++ [Py.str (n * UI_ZOOM_FACTOR props)])
  end.

(** The text between the first ["("] and the next [")"]:
    [part.split("(")[1].split(")")[0]]. *)
Definition values_of (part : string) : result string :=
  inner <- item (Py.split "(" part) 1 ;;
  item (Py.split ")" inner) 0.

(** One iteration of the loop over [parts]: what is appended to [output]. *)
Definition replace_coord_part (props : Properties) (name part : string)
  : result string :=
  if negb (Py.startswith "(" part) then Ok part
  else
    values <- values_of part ;;
    new_values <- scale_numbers props (Py.split "," values) [] ;;
    Ok (name ++ "=" ++ Py.replace values (Py.join "," new_values) part).

Fixpoint replace_coord_parts (props : Properties) (name : string)
  (parts output : list string) : result (list string) :=
  match parts with
  | [] => Ok output
  | part :: rest =>
      new_part <- replace_coord_part props name part ;;
      replace_coord_parts props name rest (output ++ [new_part])
  end.

Definition _replace_coord_attribute (props : Properties) (data name : string)
  : result string :=
  output <- replace_coord_parts props name (Py.split (name ++ "=") data) [] ;;
  Ok (Py.join "" output).

(** What is written for a script that decoded as text: both attributes,
    one after the other. *)
Definition upscale_uiscript (props : Properties) (data : string)
  : result string :=
  data1 <- _replace_coord_attribute props data "area" ;;
  _replace_coord_attribute props data1 "gutters".

(** ** [upscale_graphics]: the external resampler *)

Section Graphics.

(** [os.system(command)]: what the command does to the files, and its exit
    status. *)
Variable os_system : string -> filesystem bytes -> filesystem bytes * Z.

(** The extension that stands for a key of the dictionary. *)
Definition ext_of (t : file_type) : string :=
  match t with
  | bmp => "bmp"
  | jpg => "jpg"
  | png => "png"
  | tga => "tga"
  | unknown => "unknown"
  end.

Definition convert_command (props : Properties) (tempin tempout : string)
  : string :=
  "convert '" ++ tempin ++ "' -filter " ++ UPSCALE_FILTER props
  ++ " -resize " ++ Py.str (UI_ZOOM_FACTOR props * 100) ++ "% '"
  ++ tempout ++ "'".

(** The three paths of one conversion. *)
Definition tempin_of (props : Properties) (ext path : string) : string :=
  Py.replace ".jpg" (".tmp." ++ ext)
    (Py.replace (INPUT_DIR props) (TEMP_DIR props) path).

Definition tempout_of (ext tempin : string) : string :=
  Py.replace (".tmp." ++ ext) ("." ++ ext) tempin.

Definition output_of (ext tempout : string) : string :=
  Py.replace ("." ++ ext) ".jpg" tempout.

(** One iteration of the inner loop.  The status that [os.system] returns
    is dropped, as in the source. *)
Definition upscale_graphic (props : Properties) (ext path : string)
  (fs : filesystem bytes) : result (filesystem bytes) :=
  let tempin := tempin_of props ext path in
  fs1 <- shutil_copy fs path tempin ;;
  let tempout := tempout_of ext tempin in
  let fs2 := fst (os_system (convert_command props tempin tempout) fs1) in
  fs3 <- os_remove fs2 tempin ;;
  let output := output_of ext tempout in
  os_rename fs3 tempout output.

Fixpoint upscale_graphics_paths (props : Properties) (ext : string)
  (paths : list string) (fs : filesystem bytes) : result (filesystem bytes) :=
  match paths with
  | [] => Ok fs
  | path :: rest =>
      fs' <- upscale_graphic props ext path fs ;;
      upscale_graphics_paths props ext rest fs'
  end.

(** [for path in file_types["unknown"]: shutil.copy(...)] *)
Fixpoint copy_unknown (props : Properties) (paths : list string)
  (fs : filesystem bytes) : result (filesystem bytes) :=
  match paths with
  | [] => Ok fs
  | path :: rest =>
      fs' <- shutil_copy fs path
               (Py.replace (INPUT_DIR props) (TEMP_DIR props) path) ;;
      copy_unknown props rest fs'
  end.

(** Over the keys left in the dictionary, in its order. *)
Fixpoint upscale_graphics_keys (props : Properties) (d : file_types)
  (keys : list file_type) (fs : filesystem bytes) : result (filesystem bytes) :=
  match keys with
  | [] => Ok fs
  | t :: rest =>
      fs' <- upscale_graphics_paths props (ext_of t) (bucket t d) fs ;;
      upscale_graphics_keys props d rest fs'
  end.

(** [file_list] is what [glob] found under the input directory. *)
Definition upscale_graphics (props : Properties) (file_list : list string)
  (fs : filesystem bytes) : result (filesystem bytes) :=
  d <- filter_files_by_type fs file_list ;;
  fs1 <- copy_unknown props (ft_unknown d) fs ;;
  upscale_graphics_keys props d [bmp; jpg; png; tga] fs1.

End Graphics.

(** ** [create_dbpf_package]: identities and the archive *)

(** A resource as it is handed to the package: its three identifiers and
    the file that holds its payload. *)
Record dbpf_entry : Type := {
  type_id : Z;
  group_id : Z;
  instance_id : Z;
  file_path : string
}.

(** Modelled from the spec: the module [dbpf] is not among the sources.
    Its package object is taken as the list of the resources registered so
    far, in the order of their registration. *)
Definition DBPF : Type := list dbpf_entry.

(** Modelled from the spec: [dbpf.DBPF(output_path)], on the empty file
    that was just created, is a package without resources. *)
Definition DBPF_open : DBPF := [].

(** Modelled from the spec: [package.add_file_from_path] registers one more
    resource, given by its identifiers and the path of its payload. *)
Definition add_file_from_path (package : DBPF) (e : dbpf_entry) : DBPF :=
  (package ++ [e])%list.

(** The state of a build: the files (as the texts that reading them
    returns), the package object, the list [uuids], and what was printed. *)
Record build_state : Type := {
  fs : filesystem string;
  package : DBPF;
  uuids : list string;
  stdout : list string
}.

(** The loop of [_get_xml_attribute] over the lines of a sidecar. *)
Fixpoint xml_attribute_lines (attrib : string) (lines : list string)
  : result Z :=
  match lines with
  | [] => Ok 0%Z
  | line :: rest =>
      if Py.startswith ("<" ++ attrib ++ ">") (Py.strip line)
      then
        after <- item (Py.split ("<" ++ attrib ++ ">") line) 1 ;;
        inside <- item (Py.split ("</" ++ attrib ++ ">") after) 0 ;;
        Py.int (Py.strip inside)
      else xml_attribute_lines attrib rest
  end.

Definition _get_xml_attribute (files : filesystem string)
  (xml_path attrib : string) : result Z :=
  text <- read files xml_path ;;
  xml_attribute_lines attrib (Py.readlines text).

(** The three identifiers of a sidecar. *)
Definition resolve_identity (files : filesystem string) (xml_path : string)
  : result (Z * Z * Z) :=
  t <- _get_xml_attribute files xml_path "number" ;;
  g <- _get_xml_attribute files xml_path "group" ;;
  i <- _get_xml_attribute files xml_path "instance" ;;
  Ok (t, g, i).

(** The key of the duplicate check. *)
Definition uuid_of (group instance : Z) : string :=
  Py.str group ++ "_" ++ Py.str instance.

Definition duplicate_message (group instance : Z) : string :=
  "Skipping duplicate group ID " ++ Py.hex group
  ++ " with instance ID " ++ Py.hex instance.

(** The end of the loop body: the duplicate check and the registration. *)
Definition register (e : dbpf_entry) (st : build_state) : build_state :=
  let uuid := uuid_of (group_id e) (instance_id e) in
  if mem uuid (uuids st)
  then {| fs := fs st; package := package st; uuids := uuids st;
          stdout := stdout st
                    ++ [duplicate_message (group_id e) (instance_id e)] |}
  else {| fs := fs st; package := add_file_from_path (package st) e;
          uuids := uuids st ++ [uuid]; stdout := stdout st |}.

Definition output_path_of (props : Properties) : string :=
  path_join (OUTPUT_DIR props) "ui.package".

(** The steps of the build, each a change of the state that may raise. *)
Definition step : Type := build_state -> result build_state.

Definition step_remove (props : Properties) : step := fun st =>
  let st := {| fs := fs st; package := package st; uuids := uuids st;
               stdout := stdout st ++ [nl ++ "Creating DBPF package..."] |} in
  if exists_ (fs st) (output_path_of props)
  then
    files <- os_remove (fs st) (output_path_of props) ;;
    Ok {| fs := files; package := package st; uuids := uuids st;
          stdout := stdout st |}
  else Ok st.

(** [open(output_path, "wb").close()] *)
Definition step_create (props : Properties) : step := fun st =>
  Ok {| fs := fs_write (fs st) (output_path_of props) EmptyString;
        package := package st; uuids := uuids st; stdout := stdout st |}.

(** [package = dbpf.DBPF(output_path)] and [uuids = []] *)
Definition step_open : step := fun st =>
  Ok {| fs := fs st; package := DBPF_open; uuids := [];
        stdout := stdout st |}.

(** One iteration of the loop over the sidecars. *)
Definition step_sidecar (xml_path : string) : step := fun st =>
  if Py.endswith "package.xml" xml_path then Ok st
  else
    let path := Py.replace ".xml" "" xml_path in
    ids <- resolve_identity (fs st) xml_path ;;
    let '(t, g, i) := ids in
    Ok (register {| type_id := t; group_id := g; instance_id := i;
                    file_path := path |} st).

Section Package.

(** Modelled from the spec: [package.save] of the module [dbpf], which is
    not among the sources, writes the container (header, index, payloads)
    of the registered resources; [container] gives its bytes. *)
Variable container : filesystem string -> DBPF -> string.

Definition step_save (props : Properties) : step := fun st =>
  Ok {| fs := fs_write (fs st) (output_path_of props)
                (container (fs st) (package st));
        package := package st; uuids := uuids st;
        stdout := stdout st
                  ++ [nl ++ "Package successfully saved to output/ui.package "
                      ++ nl] |}.

(** [xml_files] is what [glob] found under the temporary directory. *)
Definition build_steps (props : Properties) (xml_files : list string)
  : list step :=
  [step_remove props; step_create props; step_open]
  ++ map step_sidecar xml_files
  ++ [step_save props].

Fixpoint run (steps : list step) (st : build_state) : result build_state :=
  match steps with
  | [] => Ok st
  | s :: rest => st' <- s st ;; run rest st'
  end.

Definition create_dbpf_package (props : Properties) (xml_files : list string)
  (st : build_state) : result build_state :=
  run (build_steps props xml_files) st.

(** A build that is stopped after its first [k] steps. *)
Definition interrupted (k : nat) (props : Properties)
  (xml_files : list string) (st : build_state) : result build_state :=
  run (firstn k (build_steps props xml_files)) st.

End Package.

(** The resources of a sequence that are kept when a later one with the
    group and instance of an earlier one is dropped. *)
Definition same_slot (a b : dbpf_entry) : bool :=
  (group_id a =? group_id b)%Z && (instance_id a =? instance_id b)%Z.

Fixpoint first_wins (seen entries : list dbpf_entry) : list dbpf_entry :=
  match entries with
  | [] => []
  | e :: rest =>
      if existsb (same_slot e) seen then first_wins seen rest
      else e :: first_wins (seen ++ [e]) rest
  end.

(** ** Predicates on characters, used to state the properties *)

(** Every character of [s] satisfies [P]. *)
Fixpoint all_chars (P : ascii -> bool) (s : string) : bool :=
  match s with
  | EmptyString => true
  | String c s' => P c && all_chars P s'
  end.

Definition is_digit (c : ascii) : bool :=
  match Py.digit_of_char c with Some _ => true | None => false end.

(** The characters that [str] of an integer is made of. *)
Definition is_digit_or_minus (c : ascii) : bool :=
  is_digit c || Ascii.eqb c "-".

Definition is_not (c : ascii) (x : ascii) : bool := negb (Ascii.eqb x c).

(** ** The rule of the type sniffer, in the words of the specification *)

(** The buffer begins with the signature. *)
Fixpoint has_prefix (signature buffer : bytes) : bool :=
  match signature, buffer with
  | [], _ => true
  | _ :: _, [] => false
  | s :: signature', b :: buffer' =>
      Byte.eqb b s && has_prefix signature' buffer'
  end.

(** [00 00 02] or [00 00 0A]: Targa; [BM]: Bitmap; [FF D8 FF]: JPEG;
    [89 50 4E 47]: PNG; else Unknown, in this order. *)
Definition type_sniffer_rule (buffer : bytes) : file_type :=
  if has_prefix sig_tga_2 buffer || has_prefix sig_tga_10 buffer then tga
  else if has_prefix sig_bmp buffer then bmp
  else if has_prefix sig_jpg buffer then jpg
  else if has_prefix sig_png buffer then png
  else unknown.

(** A sequence of resources registered one after the other. *)
Definition registers (entries : list dbpf_entry) (st : build_state)
  : build_state :=
  fold_left (fun st e => register e st) entries st.

(** The state in which the loop over the sidecars starts. *)
Definition opened (files : filesystem string) (printed : list string)
  : build_state :=
  {| fs := files; package := DBPF_open; uuids := []; stdout := printed |}.

(** [seen] stands for the keys in [uuids]. *)
Definition tracks (seen : list dbpf_entry) (st : build_state) : Prop :=
  forall e,
    mem (uuid_of (group_id e) (instance_id e)) (uuids st)
    = existsb (same_slot e) seen.

(** A sidecar without the tag: no line begins, after white space, with
    [<attrib>]. *)
Definition tag_missing (attrib text : string) : Prop :=
  Forall (fun line =>
            Py.startswith ("<" ++ attrib ++ ">") (Py.strip line) = false)
         (Py.readlines text).

(** The sidecars of the resources: all but the manifest. *)
Definition resource_sidecars (xml_files : list string) : list string :=
  filter (fun xml_path => negb (Py.endswith "package.xml" xml_path)) xml_files.

(** What is found at [path] after a run, if it returned. *)
Definition file_after {A : Type} (r : result (filesystem A)) (path : string)
  : option A :=
  match r with
  | Ok files => files path
  | Raise _ => None
  end.

Definition files_of (r : result build_state) : result (filesystem string) :=
  st <- r ;; Ok (fs st).

(** ** Sample inputs *)

(** The first bytes of a PNG file. *)
Definition png_header : bytes :=
  [Byte.x89; Byte.x50; Byte.x4e; Byte.x47; Byte.x0d; Byte.x0a].

(** A line of a font table with the point size [size] as its second quoted
    field, and the settings of a run. *)
Definition font_line (size : string) : string :=
  "Style=" ++ quote ++ "Arial" ++ quote ++ " " ++ quote ++ size ++ quote
  ++ " " ++ quote ++ "bold" ++ quote ++ nl.

Definition settings (zoom delta : Z) : Properties :=
  {| UI_ZOOM_FACTOR := zoom; FONT_INCREASE_PT := delta;
     UPSCALE_FILTER := "point"; INPUT_DIR := "/in"; TEMP_DIR := "/tmp/ui";
     OUTPUT_DIR := "/out" |}.

(** ** Well-formed coordinate attributes *)

(** A number in the form [str] prints it: digits without a leading zero,
    after a minus sign if negative. *)
Definition canonical (number : string) : Prop :=
  exists n : Z, number = Py.str n.

(** The text does not begin with ["("], and every occurrence of [name=] in
    it is followed by ["("] and by numbers, separated by commas, that are
    all in the form [str] prints them. *)
Definition literal_tuples (name data : string) : Prop :=
  match Py.split (name ++ "=") data with
  | [] => True
  | first :: occurrences =>
      Py.startswith "(" first = false
      /\ Forall (fun part =>
                   Py.startswith "(" part = true
                   /\ forall values,
                        values_of part = Ok values ->
                        Forall canonical (Py.split "," values))
                occurrences
  end.

Definition entry (t g i : Z) (path : string) : dbpf_entry :=
  {| type_id := t; group_id := g; instance_id := i; file_path := path |}.

Definition no_files_yet : filesystem string := fun _ => None.

(** An output directory that holds the archive of an earlier build. *)
Definition previous_archive : string := "DBPF: the archive of the last build".

Definition previous_build : build_state :=
  {| fs := fs_write no_files_yet "/out/ui.package" previous_archive;
     package := []; uuids := []; stdout := [] |}.

Definition sample_container (_ : filesystem string) (_ : list dbpf_entry)
  : string := "DBPF: a new archive".

(** An input directory with one PNG file, and a resampler that fails: it
    leaves an empty file under the output name and exits with status 1,
    which [os.system] reports as 256. *)
Definition one_png : filesystem bytes :=
  fun path => if String.eqb path "/in/a.jpg" then Some png_header else None.

Definition failing_convert (command : string) (files : filesystem bytes)
  : filesystem bytes * Z :=
  (fs_write files "/tmp/ui/a.png" [], 256%Z).

(** The same resampler, reporting success. *)
Definition silent_convert (command : string) (files : filesystem bytes)
  : filesystem bytes * Z :=
  (fst (failing_convert command files), 0%Z).

(** ** Notions used by the further properties *)

Definition file_type_eqb (a b : file_type) : bool :=
  match a, b with
  | bmp, bmp | jpg, jpg | png, png | tga, tga | unknown, unknown => true
  | _, _ => false
  end.

(** The file at [path] is there and its leading bytes are those of [t]. *)
Definition has_type (files : filesystem bytes) (t : file_type) (path : string)
  : bool :=
  match files path with
  | Some data => file_type_eqb (sniff data) t
  | None => false
  end.

(** The number of paths in the five lists together. *)
Definition total_files (d : file_types) : nat :=
  (List.length (ft_bmp d) + List.length (ft_jpg d) + List.length (ft_png d)
   + List.length (ft_tga d) + List.length (ft_unknown d))%nat.

(** The pair that the duplicate check is about. *)
Definition slot (e : dbpf_entry) : Z * Z := (group_id e, instance_id e).

(** ** [upscale_uiscripts]: the loop over the scripts *)

(** What [open(path, "r").read()] gives for a script: its text, or a
    [UnicodeDecodeError] for contents that are not text. *)
Inductive script : Type :=
| Text (data : string)
| Undecodable (raw : bytes).

(** Where the result for [path] is written. *)
Definition script_output_path (props : Properties) (path : string) : string :=
  Py.replace (INPUT_DIR props) (TEMP_DIR props) path.

(** One iteration of the loop: a script that does not decode is copied as
    it is, the text of another is rewritten and written. *)
Definition upscale_uiscript_file (props : Properties) (path : string)
  (files : filesystem script) : result (filesystem script) :=
  let output_path := script_output_path props path in
  content <- read files path ;;
  match content with
  | Undecodable _ => shutil_copy files path output_path
  | Text data =>
      data' <- upscale_uiscript props data ;;
      Ok (fs_write files output_path (Text data'))
  end.

(** [file_list] is what [glob] found under the input directory. *)
Fixpoint upscale_uiscripts (props : Properties) (file_list : list string)
  (files : filesystem script) : result (filesystem script) :=
  match file_list with
  | [] => Ok files
  | path :: rest =>
      files' <- upscale_uiscript_file props path files ;;
      upscale_uiscripts props rest files'
  end.

(** The text of a tuple of numbers, without its parentheses. *)
Definition tuple_text (numbers : list Z) : string :=
  Py.join "," (map Py.str numbers).

(** The numbers of a tuple, each times the factor. *)
Definition scaled (props : Properties) (numbers : list Z) : list Z :=
  map (fun n => (n * UI_ZOOM_FACTOR props)%Z) numbers.

(** Two scripts of an input directory: a binary one and a caption. *)
Definition two_scripts : filesystem script :=
  fs_write
    (fs_write (fun _ => None) "/in/a.uiScript" (Undecodable [Byte.xff]))
    "/in/b.uiScript" (Text "<LEGACY caption=OK >").

(** * Facts about the string methods *)

Module PyFacts.
Import Py.

(** A fact about one character, by cases on its eight bits. *)
Ltac by_char_cases c :=
  destruct c as [[] [] [] [] [] [] [] []]; try discriminate; reflexivity.

(** No proper suffix of a separator of at most nine characters begins the
    text at hand: by cases on the length of what is cut off. *)
Ltac no_proper_suffix :=
  let k := fresh "k" in
  let Hk := fresh "Hk" in
  intros k Hk; simpl in Hk;
  do 9 (destruct k as [|k]; [first [lia | reflexivity]|]);
  lia.

Lemma append_nil_r (s : string) : s ++ "" = s.
Proof. induction s as [|c s IH]; simpl; [reflexivity | now rewrite IH]. Qed.

Lemma append_assoc (a b c : string) : (a ++ b) ++ c = a ++ (b ++ c).
Proof. induction a as [|x a IH]; simpl; [reflexivity | now rewrite IH]. Qed.

Lemma length_append (a b : string) :
  length (a ++ b) = (length a + length b)%nat.
Proof. induction a as [|x a IH]; simpl; [reflexivity | now rewrite IH]. Qed.

Lemma append_char_cons (a : string) (c : ascii) (b : string) :
  (a ++ String c "") ++ b = a ++ String c b.
Proof. now rewrite append_assoc. Qed.

Lemma drop_0 (s : string) : drop 0 s = s.
Proof. now destruct s. Qed.

Lemma drop_app (a b : string) : drop (length a) (a ++ b) = b.
Proof. induction a as [|x a IH]; simpl; [apply drop_0 | exact IH]. Qed.

(** *** [startswith] *)

Lemma startswith_app (p r : string) : startswith p (p ++ r) = true.
Proof.
  induction p as [|c p IH]; simpl; [reflexivity|].
  now rewrite Ascii.eqb_refl, IH.
Qed.

Lemma startswith_split (p s : string) :
  startswith p s = true -> s = p ++ drop (length p) s.
Proof.
  revert s; induction p as [|c p IH]; intros s H; simpl.
  - reflexivity.
  - destruct s as [|d s]; simpl in H; [discriminate|].
    apply andb_true_iff in H as [Hc Hp].
    apply Ascii.eqb_eq in Hc; subst d.
    simpl. f_equal. now apply IH.
Qed.

Lemma startswith_iff (p s : string) :
  startswith p s = true <-> exists r, s = p ++ r.
Proof.
  split.
  - intros H. eexists. now apply startswith_split.
  - intros [r ->]. apply startswith_app.
Qed.

(** A prefix test on [t ++ b] is decided inside [t] when [p] fits in it; if
    it succeeds otherwise, [b] starts with the rest of [p]. *)
Lemma startswith_app_cases (p t b : string) :
  startswith p (t ++ b) = true ->
  startswith p t = true \/
  (length t < length p)%nat /\ startswith (drop (length t) p) b = true.
Proof.
  revert t; induction p as [|c p IH]; intros t H.
  - now left.
  - destruct t as [|d t].
    + right. simpl. split; [lia | exact H].
    + simpl in H. apply andb_true_iff in H as [Hc Hp].
      destruct (IH _ Hp) as [Ht | [Hl Hd]].
      * left. simpl. now rewrite Hc, Ht.
      * right. simpl. split; [lia | exact Hd].
Qed.

(** *** [contains] *)

Lemma contains_cons (sub : string) (c : ascii) (s : string) :
  contains sub (String c s) = startswith sub (String c s) || contains sub s.
Proof. reflexivity. Qed.

Lemma contains_false_head (sub s : string) :
  contains sub s = false -> startswith sub s = false.
Proof.
  destruct s; simpl; intros H; now apply orb_false_iff in H as [H _].
Qed.

Lemma contains_false_tail (sub : string) (c : ascii) (s : string) :
  contains sub (String c s) = false -> contains sub s = false.
Proof.
  rewrite contains_cons. intros H. now apply orb_false_iff in H as [_ H].
Qed.

(** No occurrence of [sub] in [a], none in [b], and no proper suffix of
    [sub] at the head of [b]: then none in [a ++ b]. *)
Lemma contains_app_false (sub a b : string) :
  contains sub a = false ->
  contains sub b = false ->
  (forall k, (1 <= k < length sub)%nat -> startswith (drop k sub) b = false) ->
  contains sub (a ++ b) = false.
Proof.
  intros Ha Hb Hk. induction a as [|c a IH]; [exact Hb|].
  change (String c a ++ b) with (String c (a ++ b)).
  rewrite contains_cons. apply orb_false_iff. split.
  - destruct (startswith sub (String c (a ++ b))) eqn:E; [|reflexivity].
    change (String c (a ++ b)) with (String c a ++ b) in E.
    apply startswith_app_cases in E as [E | [Hl E]].
    + apply contains_false_head in Ha. congruence.
    + rewrite Hk in E; [discriminate|]. simpl. split; [lia | exact Hl].
  - apply IH. now apply contains_false_tail in Ha.
Qed.

(** *** [split] *)

Lemma split_go_skip (sep u cur r : string) :
  split_go sep (length u) cur (u ++ r) = split_go sep 0 cur r.
Proof.
  induction u as [|c u IH]; simpl; [|exact IH].
  destruct r; reflexivity.
Qed.

Lemma split_go_nonempty (sep : string) (s : string) :
  forall skip cur, split_go sep skip cur s <> [].
Proof.
  induction s as [|c s IH]; intros skip cur; simpl; [discriminate|].
  destruct skip; [|apply IH].
  destruct (startswith sep (String c s)); [discriminate | apply IH].
Qed.

(** At an occurrence of the separator the current piece is closed. *)
Lemma split_go_sep (sep cur r : string) :
  sep <> "" ->
  split_go sep 0 cur (sep ++ r) = cur :: split_go sep 0 "" r.
Proof.
  intros Hsep. destruct sep as [|c sep]; [congruence|].
  change (String c sep ++ r) with (String c (sep ++ r)).
  cbn [split_go].
  change (String c (sep ++ r)) with (String c sep ++ r).
  rewrite startswith_app. cbn [length]. rewrite Nat.sub_succ, Nat.sub_0_r.
  now rewrite split_go_skip.
Qed.

(** Elsewhere the character joins the current piece. *)
Lemma split_go_char (sep cur : string) (c : ascii) (s : string) :
  startswith sep (String c s) = false ->
  split_go sep 0 cur (String c s) = split_go sep 0 (cur ++ String c "") s.
Proof. intros H. cbn [split_go]. now rewrite H. Qed.

Lemma split_go_no_sep (sep s : string) :
  forall cur, contains sep s = false -> split_go sep 0 cur s = [cur ++ s].
Proof.
  induction s as [|c s IH]; intros cur H.
  - simpl. now rewrite append_nil_r.
  - rewrite split_go_char by now apply contains_false_head.
    rewrite IH by now apply contains_false_tail in H.
    now rewrite append_char_cons.
Qed.

(** Before the first occurrence of the separator. *)
Lemma split_go_app_sep (sep pre r : string) :
  sep <> "" ->
  contains sep pre = false ->
  (forall k, (1 <= k < length sep)%nat ->
             startswith (drop k sep) (sep ++ r) = false) ->
  forall cur,
    split_go sep 0 cur (pre ++ sep ++ r) = (cur ++ pre) :: split_go sep 0 "" r.
Proof.
  intros Hsep Hpre Hk. induction pre as [|c pre IH]; intros cur.
  - simpl. rewrite append_nil_r. now apply split_go_sep.
  - change (String c pre ++ sep ++ r) with (String c (pre ++ sep ++ r)).
    rewrite split_go_char.
    + rewrite IH by now apply contains_false_tail in Hpre.
      now rewrite append_char_cons.
    + destruct (startswith sep (String c (pre ++ sep ++ r))) eqn:E;
        [|reflexivity].
      change (String c (pre ++ sep ++ r)) with (String c pre ++ sep ++ r) in E.
      apply startswith_app_cases in E as [E | [Hl E]].
      * apply contains_false_head in Hpre. congruence.
      * rewrite Hk in E; [discriminate|]. simpl. split; [lia | exact Hl].
Qed.

Lemma join_cons (sep p : string) (ps : list string) :
  ps <> [] -> join sep (p :: ps) = p ++ sep ++ join sep ps.
Proof. destruct ps; [congruence | reflexivity]. Qed.

(** Joining the pieces with the separator gives the text back. *)
Lemma join_split_go (sep s : string) :
  sep <> "" ->
  forall skip cur, join sep (split_go sep skip cur s) = cur ++ drop skip s.
Proof.
  intros Hsep. induction s as [|c s IH]; intros skip cur.
  - destruct skip; simpl; now rewrite append_nil_r.
  - destruct skip as [|k]; cbn [split_go drop]; [|apply IH].
    destruct (startswith sep (String c s)) eqn:E.
    + rewrite join_cons by apply split_go_nonempty.
      rewrite IH. simpl. f_equal.
      destruct sep as [|d sep]; [congruence|].
      simpl in E. apply andb_true_iff in E as [Hc Hp].
      apply Ascii.eqb_eq in Hc; subst d.
      cbn [length]. rewrite Nat.sub_succ, Nat.sub_0_r. simpl. f_equal.
      symmetry. now apply startswith_split.
    + rewrite IH, drop_0. apply append_char_cons.
Qed.

Theorem join_split (sep s : string) :
  sep <> "" -> join sep (split sep s) = s.
Proof. intros H. unfold split. now rewrite join_split_go, drop_0. Qed.

Lemma split_nonempty (sep s : string) : split sep s <> [].
Proof. apply split_go_nonempty. Qed.

(** *** [replace] *)

Lemma replace_go_skip (old new u r : string) :
  replace_go old new (length u) (u ++ r) = replace_go old new 0 r.
Proof.
  induction u as [|c u IH]; simpl; [|exact IH].
  destruct r; reflexivity.
Qed.

Lemma replace_go_old (old new r : string) :
  old <> "" ->
  replace_go old new 0 (old ++ r) = new ++ replace_go old new 0 r.
Proof.
  intros Hold. destruct old as [|c old]; [congruence|].
  change (String c old ++ r) with (String c (old ++ r)).
  cbn [replace_go].
  change (String c (old ++ r)) with (String c old ++ r).
  rewrite startswith_app. cbn [length]. rewrite Nat.sub_succ, Nat.sub_0_r.
  now rewrite replace_go_skip.
Qed.

Lemma replace_go_char (old new : string) (c : ascii) (s : string) :
  startswith old (String c s) = false ->
  replace_go old new 0 (String c s) = String c (replace_go old new 0 s).
Proof. intros H. cbn [replace_go]. now rewrite H. Qed.

Lemma replace_go_absent (old new s : string) :
  contains old s = false -> replace_go old new 0 s = s.
Proof.
  induction s as [|c s IH]; intros H; [reflexivity|].
  rewrite replace_go_char by now apply contains_false_head.
  f_equal. apply IH. now apply contains_false_tail in H.
Qed.

(** Replacing a text by itself changes nothing. *)
Lemma replace_go_same (old s : string) :
  old <> "" ->
  forall skip, replace_go old old skip s = drop skip s.
Proof.
  intros Hold. induction s as [|c s IH]; intros skip.
  - now destruct skip.
  - destruct skip as [|k]; cbn [replace_go drop]; [|apply IH].
    destruct (startswith old (String c s)) eqn:E.
    + rewrite IH.
      destruct old as [|d old]; [congruence|].
      simpl in E. apply andb_true_iff in E as [Hc Hp].
      apply Ascii.eqb_eq in Hc; subst d.
      cbn [length]. rewrite Nat.sub_succ, Nat.sub_0_r. simpl. f_equal.
      symmetry. now apply startswith_split.
    + now rewrite IH, drop_0.
Qed.

Lemma intersperse_nil (s : string) : intersperse "" s = s.
Proof. induction s as [|c s IH]; simpl; [reflexivity | now rewrite IH]. Qed.

Theorem replace_same (old s : string) : replace old old s = s.
Proof.
  destruct old as [|c old].
  - simpl. apply intersperse_nil.
  - unfold replace. rewrite replace_go_same by discriminate. apply drop_0.
Qed.

(** The first piece of a split begins with what was already collected. *)
Lemma split_go_head (sep s : string) :
  forall skip cur, exists h t, split_go sep skip cur s = (cur ++ h) :: t.
Proof.
  induction s as [|c s IH]; intros skip cur.
  - exists "", []. simpl. now rewrite append_nil_r.
  - destruct skip as [|k]; cbn [split_go]; [|apply IH].
    destruct (startswith sep (String c s)).
    + exists "". eexists. now rewrite append_nil_r.
    + destruct (IH 0%nat (cur ++ String c "")) as [h [t E]].
      exists (String c h), t. now rewrite E, append_char_cons.
Qed.

(** Characters that cannot begin the separator are passed over. *)
Lemma contains_app_absent_char (c : ascii) (sep m s : string) :
  all_chars (is_not c) m = true ->
  contains (String c sep) (m ++ s) = contains (String c sep) s.
Proof.
  induction m as [|d m IH]; intros H; [reflexivity|].
  simpl in H. apply andb_true_iff in H as [Hd Hm].
  change (String d m ++ s) with (String d (m ++ s)).
  rewrite contains_cons, (IH Hm). simpl.
  unfold is_not in Hd. apply negb_true_iff in Hd.
  now rewrite Ascii.eqb_sym, Hd.
Qed.

(** *** Character classes *)

Lemma all_chars_app (P : ascii -> bool) (a b : string) :
  all_chars P (a ++ b) = all_chars P a && all_chars P b.
Proof.
  induction a as [|c a IH]; simpl; [reflexivity|].
  now rewrite IH, andb_assoc.
Qed.

Lemma all_chars_impl (P Q : ascii -> bool) (s : string) :
  (forall c, P c = true -> Q c = true) ->
  all_chars P s = true -> all_chars Q s = true.
Proof.
  intros HPQ. induction s as [|c s IH]; simpl; [reflexivity|].
  intros H. apply andb_true_iff in H as [Hc Hs].
  now rewrite (HPQ _ Hc), IH.
Qed.

(** A text without the character [c] has no occurrence of a separator that
    starts with [c]. *)
Lemma contains_absent_char (c : ascii) (sep s : string) :
  all_chars (is_not c) s = true -> contains (String c sep) s = false.
Proof.
  induction s as [|d s IH]; intros H; [reflexivity|].
  simpl in H. apply andb_true_iff in H as [Hd Hs].
  rewrite contains_cons, (IH Hs), orb_false_r. simpl.
  unfold is_not in Hd. apply negb_true_iff in Hd.
  now rewrite Ascii.eqb_sym, Hd.
Qed.

(** The place of the first [c] in a text determines both sides. *)
Lemma append_char_inj (c : ascii) (a a' b b' : string) :
  all_chars (is_not c) a = true ->
  all_chars (is_not c) a' = true ->
  a ++ String c b = a' ++ String c b' ->
  a = a' /\ b = b'.
Proof.
  revert a'. induction a as [|x a IH]; intros [|y a'] Ha Ha' E; simpl in *.
  - injection E as ->. now split.
  - injection E as <- _. unfold is_not in Ha'.
    now rewrite Ascii.eqb_refl in Ha'.
  - injection E as -> _. unfold is_not in Ha.
    now rewrite Ascii.eqb_refl in Ha.
  - injection E as -> E.
    apply andb_true_iff in Ha as [_ Ha].
    apply andb_true_iff in Ha' as [_ Ha'].
    destruct (IH _ Ha Ha' E) as [-> ->]. now split.
Qed.

(** *** [strip] *)

Lemma lstrip_by_id (sp : ascii -> bool) (s : string) :
  all_chars (fun c => negb (sp c)) s = true -> lstrip_by sp s = s.
Proof.
  destruct s as [|c s]; simpl; [reflexivity|].
  intros H. apply andb_true_iff in H as [Hc _].
  apply negb_true_iff in Hc. now rewrite Hc.
Qed.

Lemma rstrip_by_id (sp : ascii -> bool) (s : string) :
  all_chars (fun c => negb (sp c)) s = true -> rstrip_by sp s = s.
Proof.
  induction s as [|c s IH]; simpl; [reflexivity|].
  intros H. apply andb_true_iff in H as [Hc Hs].
  apply negb_true_iff in Hc. rewrite (IH Hs), Hc. now destruct s.
Qed.

Lemma strip_by_id (sp : ascii -> bool) (s : string) :
  all_chars (fun c => negb (sp c)) s = true -> strip_by sp s = s.
Proof.
  intros H. unfold strip_by. rewrite lstrip_by_id by exact H.
  now apply rstrip_by_id.
Qed.

(** *** [int] and [str] *)

Lemma digits_string_of_uint (u : uint) :
  all_chars is_digit (NilEmpty.string_of_uint u) = true.
Proof. induction u; simpl; auto. Qed.

Lemma digits_nilzero (u : uint) :
  all_chars is_digit (NilZero.string_of_uint u) = true.
Proof. destruct u; try apply (digits_string_of_uint (_ _)); reflexivity. Qed.

Lemma is_digit_or_minus_digit (c : ascii) :
  is_digit c = true -> is_digit_or_minus c = true.
Proof. unfold is_digit_or_minus. now intros ->. Qed.

(** [str] prints digits, after a minus sign for a negative number. *)
Lemma str_chars (n : Z) : all_chars is_digit_or_minus (str n) = true.
Proof.
  unfold str. destruct n as [|p|p]; [reflexivity| |]; simpl.
  - apply all_chars_impl with (1 := is_digit_or_minus_digit).
    apply digits_nilzero.
  - apply all_chars_impl with (1 := is_digit_or_minus_digit).
    apply digits_nilzero.
Qed.

Lemma parse_digits_string_of_uint (u : uint) :
  parse_digits true (NilEmpty.string_of_uint u) = Some u.
Proof. induction u; simpl; rewrite ?IHu; reflexivity. Qed.

Lemma parse_digits_first (u : uint) :
  u <> Nil -> parse_digits false (NilEmpty.string_of_uint u) = Some u.
Proof.
  destruct u; [congruence| ..]; intros _; simpl;
    now rewrite parse_digits_string_of_uint.
Qed.

Lemma of_uint_to_uint (p : positive) : Z.of_uint (Pos.to_uint p) = Z.pos p.
Proof. unfold Z.of_uint. now rewrite DecimalPos.Unsigned.of_to. Qed.

Lemma string_of_pos (p : positive) :
  NilZero.string_of_uint (Pos.to_uint p)
  = NilEmpty.string_of_uint (Pos.to_uint p).
Proof.
  pose proof (DecimalPos.Unsigned.to_uint_nonnil p) as H.
  now destruct (Pos.to_uint p).
Qed.

Lemma digit_not_int_space (c : ascii) :
  is_digit_or_minus c = true -> negb (int_space c) = true.
Proof.
  by_char_cases c.
Qed.

(** The digits of a positive number, read back. *)
Lemma int_digits (p : positive) :
  int (NilEmpty.string_of_uint (Pos.to_uint p)) = Ok (Z.pos p).
Proof.
  pose proof (DecimalPos.Unsigned.to_uint_nonnil p) as Hnil.
  pose proof (of_uint_to_uint p) as Hof.
  pose proof (digits_string_of_uint (Pos.to_uint p)) as Hd.
  unfold int. rewrite strip_by_id.
  2:{ apply all_chars_impl with (2 := Hd). intros c Hc.
      apply digit_not_int_space. now apply is_digit_or_minus_digit. }
  destruct (Pos.to_uint p) as [|u|u|u|u|u|u|u|u|u|u]; [congruence| ..];
    simpl; rewrite parse_digits_string_of_uint; simpl; now rewrite Hof.
Qed.

(** What [str] prints, [int] reads back. *)
Theorem int_str (n : Z) : int (str n) = Ok n.
Proof.
  destruct n as [|p|p]; [reflexivity| |].
  - unfold str. simpl. rewrite string_of_pos. apply int_digits.
  - unfold str. simpl. rewrite string_of_pos.
    pose proof (DecimalPos.Unsigned.to_uint_nonnil p) as Hnil.
    pose proof (of_uint_to_uint p) as Hof.
    pose proof (digits_string_of_uint (Pos.to_uint p)) as Hd.
    unfold int. rewrite strip_by_id.
    2:{ simpl. apply all_chars_impl with (2 := Hd). intros c Hc.
        apply digit_not_int_space. now apply is_digit_or_minus_digit. }
    rewrite parse_digits_first by exact Hnil. now rewrite Hof.
Qed.

Lemma str_inj (n m : Z) : str n = str m -> n = m.
Proof.
  intros H. pose proof (int_str n) as Hn. rewrite H, int_str in Hn.
  now injection Hn.
Qed.

End PyFacts.

(** * The type sniffer *)

Module Sniffer.

Lemma sniff_rule (buffer : bytes) : sniff buffer = type_sniffer_rule buffer.
Proof.
  unfold sniff, type_sniffer_rule, bytes_in.
  destruct buffer as [|b1 [|b2 [|b3 [|b4 rest]]]]; simpl;
    rewrite ?andb_true_r, ?andb_false_r, ?orb_false_r; reflexivity.
Qed.

Lemma bucket_append_in (t t' : file_type) (p path : string) (d : file_types) :
  In path (bucket t (bucket_append t' p d))
  <-> In path (bucket t d) \/ (t = t' /\ path = p).
Proof.
  destruct t, t'; simpl; rewrite ?in_app_iff; simpl;
    intuition (congruence || auto).
Qed.

(** The lists that the loop returns: what was there, and every file under
    the key of its contents. *)
Lemma filter_files_loop_in (files_fs : filesystem bytes) (files : list string) :
  forall d0 d,
    filter_files_loop files_fs files d0 = Ok d ->
    forall t path,
      In path (bucket t d)
      <-> In path (bucket t d0)
          \/ (In path files
              /\ exists data, files_fs path = Some data /\ sniff data = t).
Proof.
  induction files as [|p rest IH]; intros d0 d H t path; simpl in H.
  - injection H as <-. simpl. intuition.
  - unfold read in H. destruct (files_fs p) as [data|] eqn:E;
      simpl in H; [|discriminate].
    rewrite (IH _ _ H), bucket_append_in. simpl. split.
    + intros [[Hin | [Ht Hp]] | [Hin Hex]]; [auto | | auto].
      subst. right. split; [now left | now exists data].
    + intros [Hin | [[Hp | Hin] Hex]]; [auto | | auto].
      subst p. destruct Hex as [data' [E' Ht]].
      assert (data' = data) by congruence. subst. auto.
Qed.

End Sniffer.

(** C2.  A buffer of at least four bytes is classified by its leading bytes
    alone, in the order of priority Targa ([00 00 02] or [00 00 0A]), Bitmap
    ([BM]), JPEG ([FF D8 FF]), PNG ([89 50 4E 47]), else Unknown; and
    [filter_files_by_type] files every path under the key of its contents,
    whatever the name of the path. *)
Theorem C2_sniffer_classifies_by_leading_bytes (buffer : bytes) :
  (4 <= List.length buffer)%nat ->
  sniff buffer = type_sniffer_rule buffer
  /\ forall (files_fs : filesystem bytes) (files : list string)
            (d : file_types) (path : string),
       filter_files_by_type files_fs files = Ok d ->
       In path files ->
       files_fs path = Some buffer ->
       forall t, In path (bucket t d) <-> t = sniff buffer.
Proof.
  intros _. split; [apply Sniffer.sniff_rule|].
  intros files_fs files d path Hd Hin Hfs t.
  unfold filter_files_by_type in Hd.
  rewrite (Sniffer.filter_files_loop_in _ _ _ Hd). split.
  - intros [Hno | [_ [data [E <-]]]]; [destruct t; contradiction|].
    congruence.
  - intros ->. right. split; [exact Hin|]. now exists buffer.
Qed.

(** C2, at the first bytes of a PNG file. *)
Lemma C2_sniffer_witness :
  (4 <= List.length png_header)%nat /\ sniff png_header = png.
Proof.
  assert (H : (4 <= List.length png_header)%nat) by (simpl; lia).
  split; [exact H|].
  destruct (C2_sniffer_classifies_by_leading_bytes png_header H) as [E _].
  rewrite E. reflexivity.
Defined.

(** * The font table *)

Module Font.
Import Py PyFacts.

Lemma item_nth {A : Type} (l : list A) (i : nat) (d : A) :
  (i < List.length l)%nat -> item l i = Ok (nth i l d).
Proof.
  intros H. unfold item. now rewrite (nth_error_nth' l d H).
Qed.

Lemma set_item_length {A : Type} (l : list A) (i : nat) (x : A) :
  List.length (set_item l i x) = List.length l.
Proof.
  revert i; induction l as [|h t IH]; intros [|i]; simpl; auto.
Qed.

Lemma set_item_Forall {A : Type} (P : A -> Prop) (l : list A) (i : nat)
  (x : A) :
  P x -> Forall P l -> Forall P (set_item l i x).
Proof.
  intros Hx. revert i; induction l as [|h t IH]; intros [|i] H; simpl; auto;
    inversion H; subst; constructor; auto.
Qed.

(** Assigning at one index leaves the other items as they were. *)
Lemma set_item_nth_other {A : Type} (l : list A) (i j : nat) (x d : A) :
  j <> i -> nth j (set_item l i x) d = nth j l d.
Proof.
  revert i j; induction l as [|h t IH]; intros [|i] [|j] H; simpl; auto;
    congruence.
Qed.

Lemma set_item_nth_same {A : Type} (l : list A) (i : nat) (x d : A) :
  (i < List.length l)%nat -> nth i (set_item l i x) d = x.
Proof.
  revert i; induction l as [|h t IH]; intros [|i] H; simpl in *;
    try lia; auto with arith.
Qed.

(** The pieces of a split at one character do not hold that character. *)
Lemma split_char_pieces (c : ascii) (s : string) :
  forall cur,
    all_chars (is_not c) cur = true ->
    Forall (fun p => all_chars (is_not c) p = true)
           (split_go (char c) 0 cur s).
Proof.
  induction s as [|d s IH]; intros cur Hcur.
  - simpl. now constructor.
  - cbn [split_go]. destruct (startswith (char c) (String d s)) eqn:E.
    + constructor; [exact Hcur|]. now apply IH.
    + apply IH. rewrite all_chars_app, Hcur. simpl.
      unfold char in E. simpl in E. unfold is_not.
      rewrite Ascii.eqb_sym.
      destruct (Ascii.eqb c d); [now destruct s | reflexivity].
Qed.

(** Pieces without the character, joined and split again, come back. *)
Lemma split_join_char (c : ascii) (parts : list string) :
  parts <> [] ->
  Forall (fun p => all_chars (is_not c) p = true) parts ->
  split (char c) (join (char c) parts) = parts.
Proof.
  induction parts as [|p ps IH]; intros Hne H; [congruence|].
  inversion H as [|? ? Hp Hps]; subst.
  destruct ps as [|q ps].
  - simpl. unfold split. rewrite split_go_no_sep; [reflexivity|].
    now apply contains_absent_char.
  - rewrite join_cons by discriminate. unfold split.
    rewrite split_go_app_sep.
    + simpl. f_equal. apply IH; [discriminate | exact Hps].
    + discriminate.
    + now apply contains_absent_char.
    + intros k Hk. simpl in Hk. lia.
Qed.

Lemma str_no_quote (n : Z) : all_chars (is_not "034") (str n) = true.
Proof.
  apply all_chars_impl with (2 := str_chars n).
  intros c. by_char_cases c.
Qed.

(** The loop over the lines rewrites them one by one, in their order. *)
Lemma upscale_fontstyle_lines_Forall2 (props : Properties)
  (lines : list string) :
  forall output result,
    upscale_fontstyle_lines props lines output = Ok result ->
    exists news,
      result = (output ++ news)%list
      /\ Forall2 (fun line new_line =>
                   upscale_fontstyle_line props line = Ok new_line)
                 lines news.
Proof.
  induction lines as [|line rest IH]; intros output result H; simpl in H.
  - injection H as <-. exists []. now rewrite app_nil_r.
  - destruct (upscale_fontstyle_line props line) as [new_line|] eqn:E;
      simpl in H; [|discriminate].
    destruct (IH _ _ H) as [news [-> HF]].
    exists (new_line :: news). rewrite <- app_assoc. split; [reflexivity|].
    now constructor.
Qed.

(** A line never raises anything but [ValueError]. *)
Lemma upscale_fontstyle_line_exn (props : Properties) (line : string)
  (e : exn) :
  upscale_fontstyle_line props line = Raise e -> e = ValueError.
Proof.
  unfold upscale_fontstyle_line.
  destruct (Nat.ltb_spec (List.length (split quote line)) 6) as [Hlt|Hge];
    [discriminate|].
  rewrite (item_nth _ "") by lia. simpl.
  unfold int.
  repeat match goal with
         | |- context [match ?x with _ => _ end] => destruct x; simpl
         end; congruence.
Qed.

Lemma upscale_fontstyle_lines_raise (props : Properties)
  (lines : list string) :
  forall output line,
    In line lines ->
    upscale_fontstyle_line props line = Raise ValueError ->
    upscale_fontstyle_lines props lines output = Raise ValueError.
Proof.
  induction lines as [|l rest IH]; intros output line Hin Hraise; [easy|].
  simpl. destruct (upscale_fontstyle_line props l) as [new_line|e] eqn:E;
    simpl.
  - destruct Hin as [-> | Hin]; [congruence|]. now apply IH with line.
  - f_equal. now apply upscale_fontstyle_line_exn in E.
Qed.

End Font.

(** C6.  A line of the font table that splits at the quote character into
    fewer than six parts is passed through unchanged.  With six parts or
    more, whose part at index 3 reads as the integer [old_size], the new
    line is the same parts joined by quotes again, the part at index 3
    replaced by the decimal rendering of
    [old_size * UI_ZOOM_FACTOR + FONT_INCREASE_PT]: split again it has the
    same parts everywhere else.  The lines are rewritten one by one in their
    order; size 10 with factor 2 and increase 1 becomes 21. *)
Theorem C6_font_size_rewritten (props : Properties) (line : string) :
  let parts := Py.split quote line in
  ((List.length parts < 6)%nat ->
   upscale_fontstyle_line props line = Ok line)
  /\ ((6 <= List.length parts)%nat ->
      forall old_size : Z,
        Py.int (nth 3 parts "") = Ok old_size ->
        let new_size :=
          (old_size * UI_ZOOM_FACTOR props + FONT_INCREASE_PT props)%Z in
        let new_parts := set_item parts 3 (Py.str new_size) in
        upscale_fontstyle_line props line = Ok (Py.join quote new_parts)
        /\ line = Py.join quote parts
        /\ Py.split quote (Py.join quote new_parts) = new_parts
        /\ nth 3 new_parts "" = Py.str new_size
        /\ List.length new_parts = List.length parts
        /\ forall j, j <> 3%nat -> nth j new_parts "" = nth j parts "")
  /\ (forall lines output : list string,
        upscale_fontstyle_lines props lines [] = Ok output ->
        Forall2 (fun old_line new_line =>
                   upscale_fontstyle_line props old_line = Ok new_line)
                lines output)
  /\ upscale_fontstyle_line (settings 2 1) (font_line "10")
     = Ok (font_line "21").
Proof.
  intros parts. split; [|split; [|split]].
  - intros Hlt. unfold upscale_fontstyle_line. fold parts.
    apply Nat.ltb_lt in Hlt. now rewrite Hlt.
  - intros Hlen old_size Hint new_size new_parts.
    split; [|split; [|split; [|split; [|split]]]].
    + unfold upscale_fontstyle_line. fold parts.
      assert (Hge : (List.length parts <? 6)%nat = false)
        by now apply Nat.ltb_ge.
      rewrite Hge, (Font.item_nth _ "") by lia. simpl.
      rewrite Hint. reflexivity.
    + symmetry. apply PyFacts.join_split. discriminate.
    + apply Font.split_join_char.
      * intros E. apply (f_equal (@List.length string)) in E.
        unfold new_parts in E.
        rewrite Font.set_item_length in E. simpl in E. lia.
      * apply Font.set_item_Forall; [apply Font.str_no_quote|].
        now apply Font.split_char_pieces.
    + apply Font.set_item_nth_same. lia.
    + apply Font.set_item_length.
    + intros j Hj. now apply Font.set_item_nth_other.
  - intros lines output H.
    destruct (Font.upscale_fontstyle_lines_Forall2 _ _ _ H) as [news [-> HF]].
    exact HF.
  - reflexivity.
Qed.

(** C6, at a line with the point size 10, factor 2 and increase 1. *)
Lemma C6_font_size_witness :
  upscale_fontstyle_line (settings 2 1) (font_line "10")
  = Ok (Py.join quote
          (set_item (Py.split quote (font_line "10")) 3 (Py.str 21))).
Proof.
  destruct (C6_font_size_rewritten (settings 2 1) (font_line "10"))
    as [_ [H _]].
  assert (Hlen : (6 <= List.length (Py.split quote (font_line "10")))%nat)
    by (vm_compute; lia).
  destruct (H Hlen 10%Z eq_refl) as [E _].
  exact E.
Defined.

(** C10.  A line that splits at the quote character into six parts or more,
    and whose part at index 3 [int] does not accept, is not passed through:
    its rewriting raises [ValueError], so does the loop over the lines of
    any table that holds it, and [upscale_fontstyle_ini] raises without
    having written the new table. *)
Theorem C10_font_size_not_integer_raises (props : Properties)
  (line : string) :
  (6 <= List.length (Py.split quote line))%nat ->
  is_ok (Py.int (nth 3 (Py.split quote line) "")) = false ->
  upscale_fontstyle_line props line = Raise ValueError
  /\ upscale_fontstyle_line props line <> Ok line
  /\ (forall lines output,
        In line lines ->
        upscale_fontstyle_lines props lines output = Raise ValueError)
  /\ (forall (files : filesystem string) (text : string),
        files (path_join (INPUT_DIR props) "FontStyle.ini") = Some text ->
        In line (Py.readlines text) ->
        upscale_fontstyle_ini props files = Raise ValueError).
Proof.
  intros Hlen Hint.
  assert (Hline : upscale_fontstyle_line props line = Raise ValueError).
  { destruct (upscale_fontstyle_line props line) as [new_line|e] eqn:E.
    - exfalso. unfold upscale_fontstyle_line in E.
      assert (Hge : (List.length (Py.split quote line) <? 6)%nat = false)
        by now apply Nat.ltb_ge.
      rewrite Hge, (Font.item_nth _ "") in E by lia. simpl in E.
      destruct (Py.int (nth 3 (Py.split quote line) "")); simpl in *;
        discriminate.
    - f_equal. now apply Font.upscale_fontstyle_line_exn in E. }
  split; [|split; [|split]].
  - exact Hline.
  - congruence.
  - intros lines output Hin.
    now apply Font.upscale_fontstyle_lines_raise with line.
  - intros files text Hfile Hin. unfold upscale_fontstyle_ini, exists_, read.
    rewrite Hfile. simpl.
    now rewrite (Font.upscale_fontstyle_lines_raise props _ [] line Hin Hline).
Qed.

(** C10, at a line whose point size is the word [ten]. *)
Lemma C10_font_size_witness :
  upscale_fontstyle_line (settings 2 1) (font_line "ten") = Raise ValueError.
Proof.
  assert (Hlen : (6 <= List.length (Py.split quote (font_line "ten")))%nat)
    by (vm_compute; lia).
  exact (proj1 (C10_font_size_not_integer_raises (settings 2 1)
                  (font_line "ten") Hlen eq_refl)).
Defined.

(** * The geometry of the scripts *)

Module Geometry.
Import Py PyFacts.

(** Both loops append to a list that they return at the end. *)
Lemma scale_numbers_app (props : Properties) (numbers : list string) :
  forall new_values,
    scale_numbers props numbers new_values
    = (news <- scale_numbers props numbers [] ;;
       Ok (new_values ++ news)%list).
Proof.
  induction numbers as [|number rest IH]; intros new_values; simpl.
  - now rewrite app_nil_r.
  - destruct (int number) as [n|e]; simpl; [|reflexivity].
    rewrite IH, (IH [_]).
    destruct (scale_numbers props rest []); simpl; [|reflexivity].
    now rewrite <- app_assoc.
Qed.

Lemma replace_coord_parts_app (props : Properties) (name : string)
  (parts : list string) :
  forall output,
    replace_coord_parts props name parts output
    = (news <- replace_coord_parts props name parts [] ;;
       Ok (output ++ news)%list).
Proof.
  induction parts as [|part rest IH]; intros output; simpl.
  - now rewrite app_nil_r.
  - destruct (replace_coord_part props name part) as [p|e]; simpl;
      [|reflexivity].
    rewrite IH, (IH [_]).
    destruct (replace_coord_parts props name rest []); simpl; [|reflexivity].
    now rewrite <- app_assoc.
Qed.

(** With the factor 1, numbers in the form [str] prints come back as they
    are. *)
Lemma scale_numbers_one (props : Properties) (numbers : list string) :
  UI_ZOOM_FACTOR props = 1%Z ->
  Forall canonical numbers ->
  scale_numbers props numbers [] = Ok numbers.
Proof.
  intros Hone. induction 1 as [|number rest [n ->] _ IH]; [reflexivity|].
  simpl. rewrite int_str. simpl. rewrite scale_numbers_app, IH. simpl.
  now rewrite Hone, Z.mul_1_r.
Qed.

(** A part that begins with ["("] always has its text between
    parentheses. *)
Lemma values_of_ok (part : string) :
  startswith "(" part = true -> exists values, values_of part = Ok values.
Proof.
  intros H. apply startswith_split in H. simpl in H.
  destruct part as [|c rest]; [discriminate|]. simpl in H.
  injection H as ->. unfold values_of, split. cbn [split_go]. simpl.
  destruct (split_go_head "(" rest 0 "") as [h [t ->]]. simpl.
  destruct (split_go_head ")" h 0 "") as [h' [t' ->]]. unfold item. simpl.
  eauto.
Qed.

(** With the factor 1, a part with numbers in the form [str] prints is
    given its [name=] back and is otherwise unchanged. *)
Lemma replace_coord_part_one (props : Properties) (name part : string) :
  UI_ZOOM_FACTOR props = 1%Z ->
  startswith "(" part = true ->
  (forall values,
      values_of part = Ok values -> Forall canonical (split "," values)) ->
  replace_coord_part props name part = Ok (name ++ "=" ++ part).
Proof.
  intros Hone Hparen Hnum. unfold replace_coord_part. rewrite Hparen. simpl.
  destruct (values_of_ok _ Hparen) as [values Hv]. rewrite Hv. simpl.
  rewrite scale_numbers_one by auto. simpl.
  rewrite join_split by discriminate.
  now rewrite replace_same.
Qed.

(** Joining with nothing the parts that got their separator back is joining
    the parts with the separator. *)
Lemma join_prefixed (sep : string) (parts : list string) :
  forall first,
    join "" (first :: map (fun p => sep ++ p) parts)
    = join sep (first :: parts).
Proof.
  induction parts as [|p ps IH]; intros first; [reflexivity|].
  change (map (fun q => sep ++ q) (p :: ps))
    with ((sep ++ p) :: map (fun q => sep ++ q) ps).
  rewrite !join_cons by discriminate. rewrite IH. simpl.
  destruct ps; simpl; now rewrite ?append_assoc.
Qed.

Lemma replace_coord_parts_one (props : Properties) (name : string)
  (parts : list string) :
  UI_ZOOM_FACTOR props = 1%Z ->
  Forall (fun part =>
            startswith "(" part = true
            /\ forall values,
                 values_of part = Ok values ->
                 Forall canonical (split "," values)) parts ->
  replace_coord_parts props name parts []
  = Ok (map (fun p => (name ++ "=") ++ p) parts).
Proof.
  intros Hone. induction 1 as [|part rest [Hparen Hnum] _ IH]; [reflexivity|].
  simpl. rewrite replace_coord_part_one by auto. simpl.
  rewrite replace_coord_parts_app, IH. simpl.
  now rewrite append_assoc.
Qed.

(** One attribute, factor 1. *)
Lemma replace_coord_attribute_one (props : Properties)
  (data name : string) :
  UI_ZOOM_FACTOR props = 1%Z ->
  literal_tuples name data ->
  _replace_coord_attribute props data name = Ok data.
Proof.
  intros Hone Hwf. unfold _replace_coord_attribute.
  unfold literal_tuples in Hwf.
  assert (Hjoin : join (name ++ "=") (split (name ++ "=") data) = data).
  { apply join_split. destruct name; discriminate. }
  destruct (split (name ++ "=") data) as [|first occurrences].
  - simpl in *. now subst.
  - destruct Hwf as [Hfirst Hocc].
    cbn [replace_coord_parts]. unfold replace_coord_part at 1.
    rewrite Hfirst. simpl.
    rewrite replace_coord_parts_app, replace_coord_parts_one by auto.
    simpl. f_equal. rewrite <- Hjoin. apply join_prefixed.
Qed.

(** A text without the attribute, and that does not begin with ["("], is
    returned as it is. *)
Lemma replace_coord_attribute_absent (props : Properties)
  (data name : string) :
  contains (name ++ "=") data = false ->
  startswith "(" data = false ->
  _replace_coord_attribute props data name = Ok data.
Proof.
  intros Hno Hparen. unfold _replace_coord_attribute, split.
  rewrite split_go_no_sep by exact Hno. simpl.
  unfold replace_coord_part. now rewrite Hparen.
Qed.

Lemma startswith_paren_app (pre rest : string) :
  startswith "(" pre = false ->
  startswith "(" rest = false ->
  startswith "(" (pre ++ rest) = false.
Proof. destruct pre; simpl; auto. Qed.

End Geometry.

(** C3.  In the part that follows [area=], every repetition of the text
    of the tuple is replaced, not only the tuple between the parentheses:
    with the factor 2, another attribute of the line that holds
    [10,20,30,40] is rewritten as well, and gutters equal to the area come
    out multiplied by four. *)
Theorem C3_repeated_values_are_rewritten :
  upscale_uiscript (settings 2 0)
    "<LEGACY area=(10,20,30,40) image=10,20,30,40 >"
  = Ok "<LEGACY area=(20,40,60,80) image=20,40,60,80 >"
  /\ upscale_uiscript (settings 2 0)
       "<LEGACY area=(10,20,30,40) gutters=(10,20,30,40) >"
     = Ok "<LEGACY area=(20,40,60,80) gutters=(40,80,120,160) >".
Proof. split; reflexivity. Qed.

(** C4, at an area written with spaces after the commas: with the factor 1
    the numbers are printed again without them. *)
Lemma C4_scale_one_counterexample :
  upscale_uiscript (settings 1 0) "<LEGACY area=(10, 20, 30, 40) >"
  = Ok "<LEGACY area=(10,20,30,40) >"
  /\ upscale_uiscript (settings 1 0) "<LEGACY area=(10, 20, 30, 40) >"
     <> Ok "<LEGACY area=(10, 20, 30, 40) >".
Proof.
  split; [reflexivity|]. vm_compute. discriminate.
Qed.

(** C4, amended.  With the factor 1 the output is the input for every text
    that does not begin with ["("] and in which every [area=] and every
    [gutters=] is followed by ["("] and by numbers, separated by commas,
    each in the form [str] prints it. *)
Theorem C4_scale_one_identity (props : Properties) (data : string) :
  UI_ZOOM_FACTOR props = 1%Z ->
  literal_tuples "area" data ->
  literal_tuples "gutters" data ->
  upscale_uiscript props data = Ok data.
Proof.
  intros Hone Harea Hgutters. unfold upscale_uiscript.
  rewrite Geometry.replace_coord_attribute_one by assumption. cbn [bind].
  now apply Geometry.replace_coord_attribute_one.
Qed.

(** C4, amended, at a line with an area and gutters. *)
Lemma C4_scale_one_witness :
  upscale_uiscript (settings 1 0)
    "<LEGACY area=(10,20,30,40) gutters=(1,-2) >"
  = Ok "<LEGACY area=(10,20,30,40) gutters=(1,-2) >".
Proof.
  apply (C4_scale_one_identity (settings 1 0)); [reflexivity | | ].
  - split; [reflexivity|]. constructor; [|constructor].
    split; [reflexivity|]. intros values E. vm_compute in E.
    injection E as <-.
    change (Py.split "," "10,20,30,40") with ["10"; "20"; "30"; "40"].
    repeat constructor;
      [exists 10%Z | exists 20%Z | exists 30%Z | exists 40%Z]; reflexivity.
  - split; [reflexivity|]. constructor; [|constructor].
    split; [reflexivity|]. intros values E. vm_compute in E.
    injection E as <-.
    change (Py.split "," "1,-2") with ["1"; "-2"].
    repeat constructor; [exists 1%Z | exists (-2)%Z]; reflexivity.
Defined.

(** C5.  An occurrence of [area=] whose value does not begin with ["("]
    loses its [area=]: in a text [pre ++ "area=" ++ value] without another
    [area=] and without [gutters=], where neither [pre] nor [value] begins
    with ["("], only [pre ++ value] is written. *)
Theorem C5_reference_loses_its_name (props : Properties)
  (pre value : string) :
  Py.contains "area=" pre = false ->
  Py.contains "area=" value = false ->
  Py.contains "gutters=" (pre ++ value) = false ->
  Py.startswith "(" pre = false ->
  Py.startswith "(" value = false ->
  upscale_uiscript props (pre ++ "area=" ++ value) = Ok (pre ++ value).
Proof.
  intros Hpre Hvalue Hgutters Hparen Hparen'. unfold upscale_uiscript.
  assert (Harea : _replace_coord_attribute props (pre ++ "area=" ++ value)
                    "area" = Ok (pre ++ value)).
  { unfold _replace_coord_attribute, Py.split.
    change ("area" ++ "=") with "area=".
    rewrite PyFacts.split_go_app_sep; [ | discriminate | exact Hpre | ].
    2:{ PyFacts.no_proper_suffix. }
    rewrite PyFacts.split_go_no_sep by exact Hvalue.
    change ("" ++ pre) with pre. change ("" ++ value) with value.
    cbn [replace_coord_parts]. unfold replace_coord_part.
    rewrite Hparen, Hparen'. reflexivity. }
  rewrite Harea. cbn [bind].
  apply Geometry.replace_coord_attribute_absent; [exact Hgutters|].
  now apply Geometry.startswith_paren_app.
Qed.

(** C5, at an area given by reference. *)
Lemma C5_reference_witness :
  upscale_uiscript (settings 2 0)
    ("<LEGACY clsid=GZWinGen " ++ "area=" ++ "kWindowArea style=1 >")
  = Ok ("<LEGACY clsid=GZWinGen " ++ "kWindowArea style=1 >").
Proof.
  apply (C5_reference_loses_its_name (settings 2 0)
           "<LEGACY clsid=GZWinGen " "kWindowArea style=1 >"); reflexivity.
Defined.

(** * The archive *)

Module Archive.
Import Py PyFacts.

Lemma str_no_underscore (n : Z) : all_chars (is_not "_") (str n) = true.
Proof.
  apply all_chars_impl with (2 := str_chars n).
  intros c. by_char_cases c.
Qed.

(** The key of the duplicate check tells the pair apart. *)
Lemma uuid_of_inj (g i g' i' : Z) :
  uuid_of g i = uuid_of g' i' -> g = g' /\ i = i'.
Proof.
  unfold uuid_of. intros E.
  change ("_" ++ str i) with (String "_" (str i)) in E.
  change ("_" ++ str i') with (String "_" (str i')) in E.
  apply append_char_inj in E as [Eg Ei]; try apply str_no_underscore.
  split; now apply str_inj.
Qed.

Lemma uuid_eqb (a b : dbpf_entry) :
  String.eqb (uuid_of (group_id b) (instance_id b))
             (uuid_of (group_id a) (instance_id a))
  = same_slot a b.
Proof.
  unfold same_slot.
  destruct (String.eqb_spec (uuid_of (group_id b) (instance_id b))
                            (uuid_of (group_id a) (instance_id a))) as [E|N].
  - apply uuid_of_inj in E as [-> ->]. now rewrite !Z.eqb_refl.
  - destruct (Z.eqb_spec (group_id a) (group_id b)) as [Eg|]; [|reflexivity].
    destruct (Z.eqb_spec (instance_id a) (instance_id b)) as [Ei|];
      [|reflexivity].
    exfalso. apply N. now rewrite Eg, Ei.
Qed.

Lemma mem_app (x : string) (l1 l2 : list string) :
  mem x (l1 ++ l2) = mem x l1 || mem x l2.
Proof.
  induction l1 as [|y l1 IH]; simpl; [reflexivity|].
  now rewrite IH, orb_assoc.
Qed.

Lemma same_slot_trans (a b c : dbpf_entry) :
  same_slot a b = true -> same_slot b c = true -> same_slot a c = true.
Proof.
  unfold same_slot. rewrite !andb_true_iff, !Z.eqb_eq. intuition congruence.
Qed.

Lemma same_slot_sym (a b : dbpf_entry) : same_slot a b = same_slot b a.
Proof.
  unfold same_slot.
  now rewrite (Z.eqb_sym (group_id a)), (Z.eqb_sym (instance_id a)).
Qed.

Lemma tracks_register (seen : list dbpf_entry) (st : build_state)
  (x : dbpf_entry) :
  tracks seen st ->
  tracks (if existsb (same_slot x) seen then seen else seen ++ [x])%list
         (register x st).
Proof.
  intros H e. unfold register. rewrite (H x).
  destruct (existsb (same_slot x) seen) eqn:E; simpl; [apply H|].
  rewrite mem_app, existsb_app, (H e). simpl.
  now rewrite uuid_eqb, !orb_false_r.
Qed.

Lemma tracks_stdout (seen : list dbpf_entry) (st : build_state)
  (printed : list string) :
  tracks seen st ->
  tracks seen {| fs := fs st; package := package st; uuids := uuids st;
                 stdout := printed |}.
Proof. intros H e. apply H. Qed.

(** The package after a sequence of registrations. *)
Lemma registers_package (entries : list dbpf_entry) :
  forall seen st,
    tracks seen st ->
    package (registers entries st)
    = (package st ++ first_wins seen entries)%list.
Proof.
  induction entries as [|x rest IH]; intros seen st H; simpl.
  - now rewrite app_nil_r.
  - pose proof (tracks_register x H) as H'.
    rewrite (IH _ _ H'). unfold register at 1. rewrite (H x).
    destruct (existsb (same_slot x) seen); simpl; [reflexivity|].
    unfold add_file_from_path. now rewrite <- app_assoc.
Qed.

(** The keys after a sequence of registrations. *)
Lemma registers_tracks (entries : list dbpf_entry) :
  forall seen st,
    tracks seen st -> tracks (seen ++ entries)%list (registers entries st).
Proof.
  induction entries as [|x rest IH]; intros seen st H; simpl.
  - now rewrite app_nil_r.
  - pose proof (tracks_register x H) as H'.
    specialize (IH _ _ H'). intros e. rewrite (IH e).
    rewrite !existsb_app. simpl.
    destruct (existsb (same_slot x) seen) eqn:E.
    + destruct (same_slot e x) eqn:Ex; simpl; [|reflexivity].
      apply existsb_exists in E as [y [Hy Hxy]].
      assert (Hs : existsb (same_slot e) seen = true).
      { apply existsb_exists. exists y. split; [exact Hy|].
        now apply same_slot_trans with x. }
      now rewrite Hs.
    + rewrite existsb_app. simpl. now rewrite orb_false_r, <- !orb_assoc.
Qed.

Lemma tracks_opened (files : filesystem string) (printed : list string) :
  tracks [] (opened files printed).
Proof. intros e. reflexivity. Qed.

End Archive.

(** * The steps of the build *)

Module Build.
Import Py PyFacts.

Lemma run_app (steps1 steps2 : list step) :
  forall st,
    run (steps1 ++ steps2) st = (st' <- run steps1 st ;; run steps2 st').
Proof.
  induction steps1 as [|s rest IH]; intros st; simpl; [reflexivity|].
  destruct (s st) as [st'|e]; simpl; [apply IH | reflexivity].
Qed.

(** The manifest makes no difference to the loop over the sidecars. *)
Lemma run_resource_sidecars (xml_files : list string) :
  forall st,
    run (map step_sidecar xml_files) st
    = run (map step_sidecar (resource_sidecars xml_files)) st.
Proof.
  induction xml_files as [|x rest IH]; intros st; [reflexivity|].
  unfold resource_sidecars in *. cbn [map filter run].
  destruct (endswith "package.xml" x) eqn:E; cbn [negb].
  - unfold step_sidecar at 1. rewrite E. simpl. apply IH.
  - cbn [map run]. destruct (step_sidecar x st); simpl; [apply IH|reflexivity].
Qed.

Lemma register_fs (e : dbpf_entry) (st : build_state) :
  fs (register e st) = fs st.
Proof. unfold register. now destruct (mem _ _). Qed.

(** The loop over the sidecars writes no file. *)
Lemma step_sidecar_fs (xml_path : string) (st st' : build_state) :
  step_sidecar xml_path st = Ok st' -> fs st' = fs st.
Proof.
  unfold step_sidecar. destruct (endswith "package.xml" xml_path).
  - now intros [= <-].
  - destruct (resolve_identity (fs st) xml_path) as [[[t g] i]|];
      simpl; [|discriminate].
    intros [= <-]. apply register_fs.
Qed.

Lemma run_sidecars_fs (xml_files : list string) :
  forall st st',
    run (map step_sidecar xml_files) st = Ok st' -> fs st' = fs st.
Proof.
  induction xml_files as [|x rest IH]; intros st st' H; simpl in H.
  - now injection H as <-.
  - destruct (step_sidecar x st) as [st1|] eqn:E; simpl in H; [|discriminate].
    rewrite (IH _ _ H). now apply step_sidecar_fs in E.
Qed.

Lemma fs_write_same {A : Type} (files : filesystem A) (path : string)
  (data : A) :
  fs_write files path data path = Some data.
Proof. unfold fs_write. now rewrite String.eqb_refl. Qed.

Lemma fs_delete_same {A : Type} (files : filesystem A) (path : string) :
  fs_delete files path path = None.
Proof. unfold fs_delete. now rewrite String.eqb_refl. Qed.

(** After its first step the build has no file at the destination. *)
Lemma step_remove_output (props : Properties) (st st' : build_state) :
  step_remove props st = Ok st' -> fs st' (output_path_of props) = None.
Proof.
  unfold step_remove, exists_, os_remove. simpl.
  destruct (fs st (output_path_of props)) eqn:E; simpl; intros [= <-]; simpl.
  - apply fs_delete_same.
  - exact E.
Qed.

(** The loop over sidecars that all resolve is the sequence of the
    registrations of their resources. *)
Lemma run_sidecars_registers (xml_files : list string) :
  forall (entries : list dbpf_entry) (st : build_state),
    Forall2 (fun xml_path e =>
               endswith "package.xml" xml_path = false
               /\ resolve_identity (fs st) xml_path
                  = Ok (type_id e, group_id e, instance_id e)
               /\ file_path e = replace ".xml" "" xml_path)
            xml_files entries ->
    run (map step_sidecar xml_files) st = Ok (registers entries st).
Proof.
  induction xml_files as [|x rest IH]; intros entries st H;
    inversion H as [|? e ? entries' [Hend [Hid Hpath]] Hrest]; subst;
    [reflexivity|].
  cbn [map run registers fold_left]. unfold step_sidecar at 1.
  rewrite Hend, Hid. cbn [bind].
  replace {| type_id := type_id e; group_id := group_id e;
             instance_id := instance_id e;
             file_path := replace ".xml" "" x |} with e
    by (destruct e; simpl in *; now subst).
  apply IH. rewrite register_fs. exact Hrest.
Qed.

End Build.

(** C1.  After any sequence of registrations in one build, the package holds
    the first resource of every pair of group and instance.  Registering a
    resource whose pair is that of an earlier one, whatever their types,
    stores nothing and prints the message about the duplicate.  A resource
    with a new pair is appended.  The loop of the build over sidecars that
    resolve is such a sequence of registrations and returns normally.
    Types 1 and 2 with group 5 and instance 9 leave one entry, the first. *)
Theorem C1_duplicates_by_group_and_instance
  (files : filesystem string) (printed : list string)
  (before : list dbpf_entry) (e : dbpf_entry) :
  let st := registers before (opened files printed) in
  package st = first_wins [] before
  /\ (existsb (same_slot e) before = true ->
      register e st
      = {| fs := fs st; package := package st; uuids := uuids st;
           stdout := stdout st
                     ++ [duplicate_message (group_id e) (instance_id e)] |})
  /\ (existsb (same_slot e) before = false ->
      package (register e st) = (package st ++ [e])%list
      /\ stdout (register e st) = stdout st)
  /\ (forall xml_files entries st',
        Forall2 (fun xml_path e' =>
                   Py.endswith "package.xml" xml_path = false
                   /\ resolve_identity (fs st') xml_path
                      = Ok (type_id e', group_id e', instance_id e')
                   /\ file_path e' = Py.replace ".xml" "" xml_path)
                xml_files entries ->
        run (map step_sidecar xml_files) st' = Ok (registers entries st'))
  /\ (let st2 := registers [entry 1 5 9 "a.jpg"; entry 2 5 9 "b.jpg"]
                   (opened files printed) in
      package st2 = [entry 1 5 9 "a.jpg"]
      /\ stdout st2
         = (printed
            ++ ["Skipping duplicate group ID 0x5 with instance ID 0x9"])%list).
Proof.
  intros st.
  pose proof (Archive.tracks_opened files printed) as H0.
  pose proof (Archive.registers_tracks before H0) as Hst. fold st in Hst.
  simpl in Hst.
  split; [|split; [|split; [|split]]].
  - unfold st. now rewrite (Archive.registers_package before H0).
  - intros Hdup. unfold register. now rewrite (Hst e), Hdup.
  - intros Hnew. unfold register. now rewrite (Hst e), Hnew.
  - intros xml_files entries st' H. now apply Build.run_sidecars_registers.
  - split; reflexivity.
Qed.

(** C1, at the two resources of the example. *)
Lemma C1_duplicates_witness :
  package (register (entry 2 5 9 "b.jpg")
             (registers [entry 1 5 9 "a.jpg"] (opened no_files_yet [])))
  = [entry 1 5 9 "a.jpg"].
Proof.
  destruct (C1_duplicates_by_group_and_instance no_files_yet []
              [entry 1 5 9 "a.jpg"] (entry 2 5 9 "b.jpg")) as [_ [H _]].
  rewrite (H eq_refl). reflexivity.
Defined.

(** C9.  For a sidecar that is there, an attribute without its tag is read
    as 0 and nothing is raised; the identity is the triple of the three
    attributes [number], [group] and [instance], so (0, 0, 0) when all the
    tags are missing.  A path that ends with [package.xml] is passed over
    without being read, and the build is the one of the other sidecars
    alone. *)
Theorem C9_identity_defaults_and_manifest_excluded
  (files : filesystem string) (xml_path text : string) :
  files xml_path = Some text ->
  (forall attrib,
      tag_missing attrib text ->
      _get_xml_attribute files xml_path attrib = Ok 0%Z)
  /\ (forall t g i,
        _get_xml_attribute files xml_path "number" = Ok t ->
        _get_xml_attribute files xml_path "group" = Ok g ->
        _get_xml_attribute files xml_path "instance" = Ok i ->
        resolve_identity files xml_path = Ok (t, g, i))
  /\ (tag_missing "number" text ->
      tag_missing "group" text ->
      tag_missing "instance" text ->
      resolve_identity files xml_path = Ok (0, 0, 0)%Z)
  /\ (forall manifest st,
        Py.endswith "package.xml" manifest = true ->
        step_sidecar manifest st = Ok st)
  /\ (forall container props xml_files st,
        create_dbpf_package container props xml_files st
        = create_dbpf_package container props (resource_sidecars xml_files) st).
Proof.
  intros Hfile.
  assert (Hmissing : forall attrib,
             tag_missing attrib text ->
             _get_xml_attribute files xml_path attrib = Ok 0%Z).
  { intros attrib Hm. unfold _get_xml_attribute, read. rewrite Hfile. simpl.
    unfold tag_missing in Hm.
    induction Hm as [|line rest Hline _ IH]; [reflexivity|].
    cbn [xml_attribute_lines]. now rewrite Hline. }
  split; [exact Hmissing|]. split; [|split; [|split]].
  - intros t g i Ht Hg Hi. unfold resolve_identity. now rewrite Ht, Hg, Hi.
  - intros Hn Hg Hi. unfold resolve_identity.
    now rewrite !Hmissing by assumption.
  - intros manifest st Hend. unfold step_sidecar. now rewrite Hend.
  - intros container props xml_files st.
    unfold create_dbpf_package, build_steps.
    rewrite !Build.run_app.
    destruct (run [step_remove props; step_create props; step_open] st)
      as [st1|]; [|reflexivity].
    cbn [bind]. rewrite !Build.run_app.
    now rewrite Build.run_resource_sidecars.
Qed.

(** C9, at a sidecar with a group and nothing else. *)
Lemma C9_identity_witness :
  resolve_identity
    (fs_write no_files_yet "/tmp/ui/a.jpg.xml"
       ("<package>" ++ nl ++ "  <group>12</group>" ++ nl ++ "</package>" ++ nl))
    "/tmp/ui/a.jpg.xml"
  = Ok (0, 12, 0)%Z.
Proof.
  destruct (C9_identity_defaults_and_manifest_excluded
              (fs_write no_files_yet "/tmp/ui/a.jpg.xml"
                 ("<package>" ++ nl ++ "  <group>12</group>" ++ nl
                  ++ "</package>" ++ nl))
              "/tmp/ui/a.jpg.xml" eq_refl) as [Hmissing [Htriple _]].
  apply Htriple.
  - apply Hmissing. repeat constructor.
  - reflexivity.
  - apply Hmissing. repeat constructor.
Defined.

(** C7, at a build that is stopped after its second step, in a directory
    that holds the archive of the build before: the archive is gone and an
    empty file is in its place. *)
Lemma C7_atomic_counterexample :
  fs previous_build "/out/ui.package" = Some previous_archive
  /\ (2 < List.length (build_steps sample_container (settings 2 0) []))%nat
  /\ file_after
       (files_of (interrupted sample_container 2 (settings 2 0) []
                    previous_build))
       "/out/ui.package"
     = Some ""
  /\ file_after
       (files_of (interrupted sample_container 1 (settings 2 0) []
                    previous_build))
       "/out/ui.package"
     = None.
Proof.
  split; [reflexivity|]. split; [simpl; lia|]. split; reflexivity.
Qed.

(** C7, amended.  A build that is stopped before its last step, the writing
    of the package, has left the destination as it was if no step was done,
    without a file after the first step, and with an empty file from the
    second step on. *)
Theorem C7_stopped_build_leaves_empty_file
  (container : filesystem string -> list dbpf_entry -> string)
  (props : Properties) (xml_files : list string)
  (k : nat) (st st' : build_state) :
  (k < List.length (build_steps container props xml_files))%nat ->
  interrupted container k props xml_files st = Ok st' ->
  (k = 0%nat -> fs st' (output_path_of props) = fs st (output_path_of props))
  /\ (k = 1%nat -> fs st' (output_path_of props) = None)
  /\ ((2 <= k)%nat -> fs st' (output_path_of props) = Some "").
Proof.
  unfold interrupted, build_steps. intros Hk Hrun.
  rewrite !length_app, length_map in Hk. simpl in Hk.
  destruct k as [|[|[|k]]].
  - simpl in Hrun. injection Hrun as <-.
    split; [reflexivity | split; intros; lia].
  - simpl in Hrun.
    destruct (step_remove props st) as [st1|] eqn:E1; simpl in Hrun;
      [|discriminate].
    injection Hrun as <-.
    split; [intros; lia | split; [|intros; lia]].
    intros _. now apply Build.step_remove_output in E1.
  - simpl in Hrun.
    destruct (step_remove props st) as [st1|] eqn:E1; simpl in Hrun;
      [|discriminate].
    injection Hrun as <-.
    split; [intros; lia | split; [intros; lia|]].
    intros _. simpl. apply Build.fs_write_same.
  - split; [intros; lia | split; [intros; lia|]]. intros _.
    change ([step_remove props; step_create props; step_open]
            ++ map step_sidecar xml_files ++ [step_save container props])%list
      with (step_remove props :: step_create props :: step_open
            :: (map step_sidecar xml_files
                ++ [step_save container props])%list) in Hrun.
    cbn [firstn run] in Hrun.
    destruct (step_remove props st) as [st1|] eqn:E1; cbn [bind] in Hrun;
      [|discriminate].
    cbn [step_create step_open bind] in Hrun.
    rewrite firstn_app, firstn_map, length_map in Hrun.
    replace (k - List.length xml_files)%nat with 0%nat in Hrun by lia.
    cbn [firstn] in Hrun. rewrite app_nil_r in Hrun.
    apply Build.run_sidecars_fs in Hrun. rewrite Hrun. simpl.
    apply Build.fs_write_same.
Qed.

(** C7, amended, at the build stopped after its second step. *)
Lemma C7_stopped_build_witness :
  file_after
    (files_of (interrupted sample_container 2 (settings 2 0) []
                 previous_build))
    (output_path_of (settings 2 0))
  = Some "".
Proof.
  assert (Hk : (2 < List.length
                      (build_steps sample_container (settings 2 0) []))%nat)
    by (simpl; lia).
  destruct (@C7_stopped_build_leaves_empty_file sample_container
              (settings 2 0) [] 2 previous_build _ Hk eq_refl) as [_ [_ H]].
  exact (H (le_n 2)).
Defined.

(** * The resampler *)

Module Resampler.

Section Status.

Variables sys1 sys2 : string -> filesystem bytes -> filesystem bytes * Z.
Hypothesis same_files :
  forall command files, fst (sys1 command files) = fst (sys2 command files).

Lemma upscale_graphic_status (props : Properties) (ext path : string)
  (files : filesystem bytes) :
  upscale_graphic sys1 props ext path files
  = upscale_graphic sys2 props ext path files.
Proof.
  unfold upscale_graphic.
  destruct (shutil_copy files path (tempin_of props ext path)); simpl;
    [|reflexivity].
  now rewrite same_files.
Qed.

Lemma upscale_graphics_paths_status (props : Properties) (ext : string)
  (paths : list string) :
  forall files,
    upscale_graphics_paths sys1 props ext paths files
    = upscale_graphics_paths sys2 props ext paths files.
Proof.
  induction paths as [|path rest IH]; intros files; simpl; [reflexivity|].
  rewrite upscale_graphic_status.
  destruct (upscale_graphic sys2 props ext path files); simpl;
    [apply IH | reflexivity].
Qed.

Lemma upscale_graphics_keys_status (props : Properties) (d : file_types)
  (keys : list file_type) :
  forall files,
    upscale_graphics_keys sys1 props d keys files
    = upscale_graphics_keys sys2 props d keys files.
Proof.
  induction keys as [|t rest IH]; intros files; simpl; [reflexivity|].
  rewrite upscale_graphics_paths_status.
  destruct (upscale_graphics_paths sys2 props (ext_of t) (bucket t d) files);
    simpl; [apply IH | reflexivity].
Qed.

Lemma upscale_graphics_status (props : Properties) (file_list : list string)
  (files : filesystem bytes) :
  upscale_graphics sys1 props file_list files
  = upscale_graphics sys2 props file_list files.
Proof.
  unfold upscale_graphics.
  destruct (filter_files_by_type files file_list) as [d|]; cbn [bind];
    [|reflexivity].
  destruct (copy_unknown props (ft_unknown d) files); cbn [bind];
    [|reflexivity].
  apply upscale_graphics_keys_status.
Qed.

End Status.

End Resampler.

(** C8, at a PNG file and a resampler that leaves an empty file and exits
    with status 1: the conversion returns normally and the empty file is
    the resource. *)
Lemma C8_failure_counterexample :
  snd (failing_convert
         (convert_command (settings 2 0) "/tmp/ui/a.tmp.png" "/tmp/ui/a.png")
         one_png) <> 0%Z
  /\ is_ok (upscale_graphics failing_convert (settings 2 0) ["/in/a.jpg"]
              one_png) = true
  /\ file_after (upscale_graphics failing_convert (settings 2 0) ["/in/a.jpg"]
                   one_png) "/tmp/ui/a.jpg"
     = Some [].
Proof.
  split; [discriminate|]. split; reflexivity.
Qed.

(** C8, amended.  The exit status of the resampler is dropped: two
    resamplers that leave the same files give the same result, whatever
    they report.  A conversion after which the staged copy and a file under
    the output name are there returns normally, and that file, whatever it
    holds, becomes the resource under its [.jpg] name; only a missing
    output file raises [FileNotFoundError]. *)
Theorem C8_exit_status_is_dropped
  (sys1 sys2 : string -> filesystem bytes -> filesystem bytes * Z)
  (props : Properties) :
  (forall command files,
      fst (sys1 command files) = fst (sys2 command files)) ->
  (forall file_list files,
      upscale_graphics sys1 props file_list files
      = upscale_graphics sys2 props file_list files)
  /\ (forall (t : file_type) (path : string) (files : filesystem bytes)
             (data staged : bytes),
        let tempin := tempin_of props (ext_of t) path in
        let tempout := tempout_of (ext_of t) tempin in
        let left :=
          fst (sys1 (convert_command props tempin tempout)
                    (fs_write files tempin data)) in
        files path = Some data ->
        path <> tempin ->
        tempout <> tempin ->
        left tempin = Some staged ->
        match left tempout with
        | Some result =>
            exists files',
              upscale_graphic sys1 props (ext_of t) path files = Ok files'
              /\ files' (output_of (ext_of t) tempout) = Some result
        | None =>
            upscale_graphic sys1 props (ext_of t) path files
            = Raise FileNotFoundError
        end).
Proof.
  intros Hsame. split.
  - intros file_list files. now apply Resampler.upscale_graphics_status.
  - intros t path files data staged tempin tempout left
      Hpath Hin Hout Hstaged.
    unfold upscale_graphic, shutil_copy. fold tempin. rewrite Hpath.
    apply String.eqb_neq in Hin. rewrite Hin. cbn [bind].
    fold tempout. fold left. unfold os_remove. rewrite Hstaged. cbn [bind].
    apply String.eqb_neq in Hout.
    assert (Hd : fs_delete left tempin tempout = left tempout)
      by (unfold fs_delete; now rewrite Hout).
    unfold os_rename. rewrite Hd.
    destruct (left tempout) as [result|]; [|reflexivity].
    destruct (String.eqb tempout (output_of (ext_of t) tempout)) eqn:E.
    + eexists. split; [reflexivity|].
      apply String.eqb_eq in E. now rewrite <- E.
    + eexists. split; [reflexivity|]. apply Build.fs_write_same.
Qed.

(** C8, amended, at the failing resampler and the same one reporting
    success. *)
Lemma C8_exit_status_witness :
  upscale_graphics failing_convert (settings 2 0) ["/in/a.jpg"] one_png
  = upscale_graphics silent_convert (settings 2 0) ["/in/a.jpg"] one_png.
Proof.
  apply (proj1 (@C8_exit_status_is_dropped failing_convert silent_convert
                  (settings 2 0) (fun _ _ => eq_refl))).
Defined.

(** * Further properties of [filter_files_by_type] *)

Module Buckets.

Lemma file_type_eqb_eq (a b : file_type) :
  file_type_eqb a b = true <-> a = b.
Proof. destruct a, b; simpl; split; congruence. Qed.

Lemma bucket_append_bucket (t t' : file_type) (p : string) (d : file_types) :
  bucket t (bucket_append t' p d)
  = (bucket t d ++ (if file_type_eqb t' t then [p] else []))%list.
Proof. destruct t, t'; simpl; now rewrite ?app_nil_r. Qed.

Lemma bucket_append_total (t : file_type) (p : string) (d : file_types) :
  total_files (bucket_append t p d) = S (total_files d).
Proof.
  unfold total_files. destruct t; simpl; rewrite length_app; simpl; lia.
Qed.

Lemma filter_files_loop_buckets (files_fs : filesystem bytes)
  (files : list string) :
  forall d0 d,
    filter_files_loop files_fs files d0 = Ok d ->
    (forall t,
        bucket t d = (bucket t d0 ++ filter (has_type files_fs t) files)%list)
    /\ total_files d = (total_files d0 + List.length files)%nat.
Proof.
  induction files as [|p rest IH]; intros d0 d H; simpl in H.
  - injection H as <-. split; [intros t; now rewrite app_nil_r | simpl; lia].
  - unfold read in H. destruct (files_fs p) as [data|] eqn:E;
      simpl in H; [|discriminate].
    destruct (IH _ _ H) as [Hb Ht]. split.
    + intros t. rewrite Hb, bucket_append_bucket, <- app_assoc.
      f_equal. simpl. unfold has_type at 2. rewrite E.
      now destruct (file_type_eqb (sniff data) t).
    + rewrite Ht, bucket_append_total. simpl. lia.
Qed.

Lemma filter_files_loop_ok (files_fs : filesystem bytes) (files : list string) :
  forall d0,
    Forall (fun p => files_fs p <> None) files ->
    exists d, filter_files_loop files_fs files d0 = Ok d.
Proof.
  induction files as [|p rest IH]; intros d0 H; simpl; [eauto|].
  inversion H as [|? ? Hp Hrest]; subst. unfold read.
  destruct (files_fs p); [|congruence]. simpl. now apply IH.
Qed.

End Buckets.

(** X1.  Each list that [filter_files_by_type] returns holds, in the order
    of the input, the paths whose contents have the type of its key; the
    five lists together hold as many paths as were given. *)
Theorem X1_buckets_partition_in_order
  (files_fs : filesystem bytes) (files : list string) (d : file_types) :
  filter_files_by_type files_fs files = Ok d ->
  (forall t, bucket t d = filter (has_type files_fs t) files)
  /\ total_files d = List.length files.
Proof.
  intros H. unfold filter_files_by_type in H.
  destruct (Buckets.filter_files_loop_buckets _ _ _ H) as [Hb Ht]. split.
  - intros t. rewrite Hb. now destruct t.
  - rewrite Ht. reflexivity.
Qed.

(** X1, at a directory with one PNG file. *)
Lemma X1_buckets_witness :
  bucket png {| ft_bmp := []; ft_jpg := []; ft_png := ["/in/a.jpg"];
                ft_tga := []; ft_unknown := [] |}
  = filter (has_type one_png png) ["/in/a.jpg"].
Proof.
  exact (proj1 (X1_buckets_partition_in_order one_png ["/in/a.jpg"] eq_refl)
           png).
Defined.

(** X3.  A file of fewer than two bytes, the empty file among them, is of
    unknown type. *)
Theorem X3_short_buffer_unknown (buffer : bytes) :
  (List.length buffer < 2)%nat -> sniff buffer = unknown.
Proof.
  destruct buffer as [|b [|b' rest]]; simpl; intros H; try lia.
  - reflexivity.
  - unfold sniff, bytes_in. simpl.
    now rewrite !andb_false_r.
Qed.

(** X3, at the empty file. *)
Lemma X3_short_buffer_witness : sniff [] = unknown.
Proof.
  apply X3_short_buffer_unknown. simpl. lia.
Defined.

(** * Further properties of the font table *)

Module FontMore.
Import Py PyFacts.

Lemma set_item_same {A : Type} (l : list A) (i : nat) (d : A) :
  (i < List.length l)%nat -> set_item l i (nth i l d) = l.
Proof.
  revert i; induction l as [|h t IH]; intros [|i] H; simpl in *;
    try lia; try reflexivity.
  f_equal. apply IH. lia.
Qed.

Lemma set_item_twice {A : Type} (l : list A) (i : nat) (x y : A) :
  set_item (set_item l i x) i y = set_item l i y.
Proof.
  revert i; induction l as [|h t IH]; intros [|i]; simpl; try reflexivity.
  now rewrite IH.
Qed.

(** A loop over lines that are each rewritten to themselves returns
    them. *)
Lemma upscale_fontstyle_lines_same (props : Properties) (lines : list string) :
  forall output,
    Forall (fun line => upscale_fontstyle_line props line = Ok line) lines ->
    upscale_fontstyle_lines props lines output = Ok (output ++ lines)%list.
Proof.
  induction lines as [|line rest IH]; intros output H; simpl.
  - now rewrite app_nil_r.
  - inversion H as [|? ? Hline Hrest]; subst. rewrite Hline. simpl.
    rewrite IH by exact Hrest. now rewrite <- app_assoc.
Qed.

Lemma short_line_same (props : Properties) (line : string) :
  (List.length (split quote line) < 6)%nat ->
  upscale_fontstyle_line props line = Ok line.
Proof.
  intros H. unfold upscale_fontstyle_line.
  apply Nat.ltb_lt in H. now rewrite H.
Qed.

(** A line with six parts or more, whose size reads as [n]. *)
Lemma data_line (props : Properties) (line : string) (n : Z) :
  (6 <= List.length (split quote line))%nat ->
  int (nth 3 (split quote line) "") = Ok n ->
  upscale_fontstyle_line props line
  = Ok (join quote
          (set_item (split quote line) 3
             (str (n * UI_ZOOM_FACTOR props + FONT_INCREASE_PT props)))).
Proof.
  intros Hlen Hint. unfold upscale_fontstyle_line.
  assert (Hge : (List.length (split quote line) <? 6)%nat = false)
    by now apply Nat.ltb_ge.
  rewrite Hge, (Font.item_nth _ "") by lia. cbn [bind].
  now rewrite Hint.
Qed.

(** The parts of a rewritten data line. *)
Lemma split_data_line (line new_size : string) :
  all_chars (is_not "034") new_size = true ->
  split quote (join quote (set_item (split quote line) 3 new_size))
  = set_item (split quote line) 3 new_size.
Proof.
  intros Hsize. apply Font.split_join_char.
  - intros E. apply (f_equal (@List.length string)) in E.
    rewrite Font.set_item_length in E.
    pose proof (@split_nonempty quote line) as Hne.
    destruct (split quote line); [congruence | discriminate].
  - apply Font.set_item_Forall; [exact Hsize|].
    now apply Font.split_char_pieces.
Qed.

End FontMore.

(** X5.  Without a font table in the input directory,
    [upscale_fontstyle_ini] returns with the files as they were and the
    message that it was skipped.  Whenever it returns, every file but the
    font table of the output directory is as it was. *)
Theorem X5_font_table_writes_only_its_output
  (props : Properties) (files : filesystem string) :
  (files (path_join (INPUT_DIR props) "FontStyle.ini") = None ->
   upscale_fontstyle_ini props files
   = Ok (files, ["Skipping FontStyle.ini as not present in 'input' folder"]))
  /\ (forall files' printed,
        upscale_fontstyle_ini props files = Ok (files', printed) ->
        forall p,
          p <> path_join (OUTPUT_DIR props) "FontStyle.ini" ->
          files' p = files p).
Proof.
  split.
  - intros Hnone. unfold upscale_fontstyle_ini, exists_. now rewrite Hnone.
  - intros files' printed H p Hp.
    unfold upscale_fontstyle_ini, exists_, read in H.
    destruct (files (path_join (INPUT_DIR props) "FontStyle.ini"))
      as [text|]; cbn [negb bind] in H.
    + destruct (upscale_fontstyle_lines props (Py.readlines text) [])
        as [output|]; cbn [bind] in H; [|discriminate].
      injection H as <- _. unfold fs_write.
      apply String.eqb_neq in Hp. now rewrite Hp.
    + now injection H as <- _.
Qed.

(** X5, at a directory without a font table. *)
Lemma X5_font_table_witness :
  upscale_fontstyle_ini (settings 2 1) no_files_yet
  = Ok (no_files_yet,
        ["Skipping FontStyle.ini as not present in 'input' folder"]).
Proof.
  apply (proj1 (X5_font_table_writes_only_its_output (settings 2 1)
                  no_files_yet)).
  reflexivity.
Defined.

(** X6.  With the factor 1 and the increase 0, the loop over the lines of
    the font table returns the lines as they were read, when the size of
    every line with six parts or more is an integer of at most 4300 digits
    in the form [str] prints it. *)
Theorem X6_font_lines_identity (props : Properties) (lines : list string) :
  UI_ZOOM_FACTOR props = 1%Z ->
  FONT_INCREASE_PT props = 0%Z ->
  Forall (fun line =>
            (List.length (Py.split quote line) < 6)%nat
            \/ exists n : Z,
                 (Z.abs n < 10 ^ 4300)%Z
                 /\ nth 3 (Py.split quote line) "" = Py.str n)
         lines ->
  upscale_fontstyle_lines props lines [] = Ok lines.
Proof.
  intros Hone Hzero Hlines.
  rewrite FontMore.upscale_fontstyle_lines_same; [reflexivity|].
  apply Forall_impl with (2 := Hlines). intros line [Hshort | [n [_ Hn]]].
  - now apply FontMore.short_line_same.
  - destruct (Nat.lt_ge_cases (List.length (Py.split quote line)) 6)
      as [Hshort | Hlen]; [now apply FontMore.short_line_same|].
    rewrite (@FontMore.data_line props line n Hlen)
      by (rewrite Hn; apply PyFacts.int_str).
    rewrite Hone, Hzero, Z.mul_1_r, Z.add_0_r, <- Hn.
    rewrite FontMore.set_item_same by lia.
    f_equal. apply PyFacts.join_split. discriminate.
Qed.

(** X6, at a header and a line of size 10. *)
Lemma X6_font_lines_witness :
  upscale_fontstyle_lines (settings 1 0) ["[Fonts]" ++ nl; font_line "10"] []
  = Ok ["[Fonts]" ++ nl; font_line "10"].
Proof.
  apply (@X6_font_lines_identity (settings 1 0)
           ["[Fonts]" ++ nl; font_line "10"]); try reflexivity.
  constructor; [left; simpl; lia|].
  constructor; [|constructor].
  right. exists 10%Z. split; [vm_compute; reflexivity | reflexivity].
Defined.

(** X7.  Rewriting a line with one factor and increase, and the result with
    another, is rewriting the line once with the product of the factors and
    the first increase times the second factor plus the second increase. *)
Theorem X7_font_line_composes
  (first second both : Properties) (line line1 : string) :
  UI_ZOOM_FACTOR both = (UI_ZOOM_FACTOR first * UI_ZOOM_FACTOR second)%Z ->
  FONT_INCREASE_PT both
  = (FONT_INCREASE_PT first * UI_ZOOM_FACTOR second
     + FONT_INCREASE_PT second)%Z ->
  upscale_fontstyle_line first line = Ok line1 ->
  upscale_fontstyle_line second line1 = upscale_fontstyle_line both line.
Proof.
  intros Hzoom Hinc H1.
  destruct (Nat.lt_ge_cases (List.length (Py.split quote line)) 6)
    as [Hshort | Hlen].
  - rewrite FontMore.short_line_same in H1 by exact Hshort.
    injection H1 as <-. now rewrite !FontMore.short_line_same.
  - destruct (Py.int (nth 3 (Py.split quote line) "")) as [n|e] eqn:Hint.
    + rewrite (@FontMore.data_line first line n Hlen Hint) in H1.
      injection H1 as <-.
      rewrite (@FontMore.data_line both line n Hlen Hint).
      set (m := (n * UI_ZOOM_FACTOR first + FONT_INCREASE_PT first)%Z).
      assert (Hsplit := @FontMore.split_data_line line (Py.str m)
                          (Font.str_no_quote m)).
      rewrite (@FontMore.data_line second _ m).
      * rewrite Hsplit, FontMore.set_item_twice. do 4 f_equal.
        unfold m. rewrite Hzoom, Hinc. ring.
      * rewrite Hsplit, Font.set_item_length. exact Hlen.
      * rewrite Hsplit, Font.set_item_nth_same by lia.
        apply PyFacts.int_str.
    + exfalso. unfold upscale_fontstyle_line in H1.
      assert (Hge : (List.length (Py.split quote line) <? 6)%nat = false)
        by now apply Nat.ltb_ge.
      rewrite Hge, (Font.item_nth _ "") in H1 by lia. cbn [bind] in H1.
      rewrite Hint in H1. discriminate.
Qed.

(** X7, at size 10: factor 2 and increase 1, then factor 3 and increase 2,
    against factor 6 and increase 5. *)
Lemma X7_font_line_witness :
  upscale_fontstyle_line (settings 3 2) (font_line "21")
  = upscale_fontstyle_line (settings 6 5) (font_line "10").
Proof.
  apply (@X7_font_line_composes (settings 2 1) (settings 3 2) (settings 6 5)
           (font_line "10") (font_line "21")); reflexivity.
Defined.

(** * Further properties of the sidecars *)

Module Sidecar.
Import Py PyFacts.

Lemma lstrip_by_spaces (sp : ascii -> bool) (indent s : string) :
  all_chars sp indent = true ->
  lstrip_by sp (indent ++ s) = lstrip_by sp s.
Proof.
  induction indent as [|c indent IH]; intros H; [reflexivity|].
  simpl in H. apply andb_true_iff in H as [Hc Hi].
  simpl. rewrite Hc. now apply IH.
Qed.

(** White space at the end is taken away after the last other
    character. *)
Lemma rstrip_by_keeps (sp : ascii -> bool) (a : string) (x : ascii)
  (b : string) :
  sp x = false ->
  exists r, rstrip_by sp (a ++ String x b) = a ++ String x r.
Proof.
  intros Hx. induction a as [|c a [r IH]].
  - simpl. destruct (rstrip_by sp b) as [|d r'].
    + rewrite Hx. now exists "".
    + now exists (String d r').
  - exists r. simpl. rewrite IH. now destruct a.
Qed.

Lemma startswith_app_r (p s r : string) :
  startswith p s = true -> startswith p (s ++ r) = true.
Proof.
  intros H. apply startswith_split in H. rewrite H, append_assoc.
  apply startswith_app.
Qed.

(** A suffix of a text without [c] does not begin a text that begins
    with [c]. *)
Lemma startswith_drop_absent (c : ascii) (t x : string) :
  all_chars (is_not c) t = true ->
  forall k, (k < length t)%nat -> startswith (drop k t) (String c x) = false.
Proof.
  induction t as [|d t IH]; intros H k Hk; simpl in Hk; [lia|].
  simpl in H. apply andb_true_iff in H as [Hd Ht].
  destruct k as [|k].
  - simpl. unfold is_not in Hd. apply negb_true_iff in Hd. now rewrite Hd.
  - simpl. apply IH; [exact Ht | lia].
Qed.

(** Characters that cannot begin the separator join the current piece. *)
Lemma split_go_absent_char (c : ascii) (sep m s : string) :
  all_chars (is_not c) m = true ->
  forall cur,
    split_go (String c sep) 0 cur (m ++ s)
    = split_go (String c sep) 0 (cur ++ m) s.
Proof.
  induction m as [|d m IH]; intros H cur.
  - simpl. now rewrite append_nil_r.
  - simpl in H. apply andb_true_iff in H as [Hd Hm].
    change (String d m ++ s) with (String d (m ++ s)).
    rewrite split_go_char.
    + rewrite IH by exact Hm. now rewrite append_char_cons.
    + simpl. unfold is_not in Hd. apply negb_true_iff in Hd.
      now rewrite Ascii.eqb_sym, Hd.
Qed.

Lemma space_is_not_bracket (c : ascii) :
  isspace c = true -> is_not "<" c = true.
Proof. by_char_cases c. Qed.

Lemma digit_is_not_bracket (c : ascii) :
  is_digit_or_minus c = true -> is_not "<" c = true.
Proof. by_char_cases c. Qed.

Lemma digit_is_not_space (c : ascii) :
  is_digit_or_minus c = true -> negb (isspace c) = true.
Proof. by_char_cases c. Qed.

Lemma str_no_bracket (n : Z) : all_chars (is_not "<") (str n) = true.
Proof. apply all_chars_impl with (2 := str_chars n), digit_is_not_bracket. Qed.

Lemma strip_str (n : Z) : strip (str n) = str n.
Proof.
  apply strip_by_id.
  apply all_chars_impl with (2 := str_chars n), digit_is_not_space.
Qed.

(** The name of a tag, closed by [">"], holds no ["<"]. *)
Lemma name_closed_no_bracket (attrib : string) :
  all_chars (is_not "<") attrib = true ->
  all_chars (is_not "<") (attrib ++ ">") = true.
Proof. intros H. now rewrite all_chars_app, H. Qed.

(** The tagged line is recognised. *)
Lemma tagged_line_recognised (attrib indent rest : string) :
  all_chars isspace indent = true ->
  startswith ("<" ++ attrib ++ ">")
             (strip (indent ++ "<" ++ attrib ++ ">" ++ rest)) = true.
Proof.
  intros Hindent. unfold strip, strip_by.
  rewrite lstrip_by_spaces by exact Hindent.
  destruct (@rstrip_by_keeps isspace (String "<" attrib) ">" rest eq_refl)
    as [r Hr].
  change (rstrip_by isspace (String "<" (attrib ++ String ">" rest))
          = String "<" (attrib ++ String ">" r)) in Hr.
  change (startswith (String "<" (attrib ++ ">"))
            (rstrip_by isspace
               (lstrip_by isspace (String "<" (attrib ++ String ">" rest))))
          = true).
  cbn [lstrip_by]. change (isspace "<") with false. cbn iota.
  rewrite Hr. cbn [startswith]. rewrite Ascii.eqb_refl. cbn [andb].
  rewrite <- (append_char_cons attrib ">" r). apply startswith_app.
Qed.

(** The number between the tags of a line is read back. *)
Lemma tagged_line_value (attrib indent rest : string) (n : Z) :
  all_chars isspace indent = true ->
  all_chars (is_not "<") attrib = true ->
  startswith "/" attrib = false ->
  (after <- item (split ("<" ++ attrib ++ ">")
                    (indent ++ "<" ++ attrib ++ ">" ++ str n
                     ++ "</" ++ attrib ++ ">" ++ rest)) 1 ;;
   inside <- item (split ("</" ++ attrib ++ ">") after) 0 ;;
   int (strip inside))
  = Ok n.
Proof.
  intros Hindent Hattrib Hslash.
  pose proof (name_closed_no_bracket _ Hattrib) as Hname.
  set (tag := "<" ++ attrib ++ ">").
  set (endtag := "</" ++ attrib ++ ">").
  assert (Hline : indent ++ "<" ++ attrib ++ ">" ++ str n
                  ++ "</" ++ attrib ++ ">" ++ rest
                  = indent ++ tag ++ str n ++ endtag ++ rest).
  { unfold tag, endtag. simpl. now rewrite !append_assoc. }
  rewrite Hline. clear Hline. unfold split.
  (* the first piece is the indentation *)
  rewrite split_go_app_sep; [ | discriminate | | ].
  2:{ apply contains_absent_char.
      apply all_chars_impl with (2 := Hindent), space_is_not_bracket. }
  2:{ intros k Hk. destruct k as [|k]; [lia|].
      unfold tag. simpl in Hk |- *.
      apply startswith_drop_absent; [exact Hname | lia]. }
  unfold item at 1. cbn [nth_error].
  (* the second piece goes over the number and the closing tag *)
  unfold tag at 1.
  change ("<" ++ attrib ++ ">") with (String "<" (attrib ++ ">")).
  rewrite split_go_absent_char by apply str_no_bracket.
  assert (Hend : endtag ++ rest
                 = String "<" (("/" ++ attrib ++ ">") ++ rest)).
  { unfold endtag. simpl. now rewrite !append_assoc. }
  rewrite Hend. rewrite split_go_char.
  2:{ destruct attrib as [|a attrib']; [reflexivity|].
      cbn [startswith] in Hslash. rewrite andb_true_r in Hslash.
      cbn [startswith append].
      now rewrite Ascii.eqb_refl, (Ascii.eqb_sym a), Hslash. }
  rewrite split_go_absent_char.
  2:{ simpl. exact Hname. }
  destruct (split_go_head (String "<" (attrib ++ ">")) rest 0
              ((("" ++ str n) ++ "<") ++ "/" ++ attrib ++ ">"))
    as [h [t ->]].
  cbn [bind].
  (* inside the second piece, the number comes before the closing tag *)
  assert (Hafter : (((("" ++ str n) ++ "<") ++ "/" ++ attrib ++ ">") ++ h)
                   = str n ++ endtag ++ h).
  { unfold endtag. simpl. rewrite !append_assoc. simpl.
    now rewrite !append_assoc. }
  rewrite Hafter.
  rewrite split_go_app_sep; [ | discriminate | | ].
  2:{ apply contains_absent_char, str_no_bracket. }
  2:{ intros k Hk. destruct k as [|k]; [lia|].
      unfold endtag. simpl in Hk |- *.
      apply (startswith_drop_absent "<" (String "/" (attrib ++ ">")));
        [exact Hname | simpl; lia]. }
  unfold item. cbn [nth_error bind].
  change ("" ++ str n) with (str n).
  rewrite strip_str. apply int_str.
Qed.

(** Lines without the tag are passed over, and the first line with it
    decides. *)
Lemma first_tagged_line (attrib : string) (before : list string)
  (line : string) (after : list string) :
  Forall (fun l => startswith ("<" ++ attrib ++ ">") (strip l) = false)
         before ->
  startswith ("<" ++ attrib ++ ">") (strip line) = true ->
  xml_attribute_lines attrib (before ++ line :: after)
  = xml_attribute_lines attrib [line].
Proof.
  intros Hbefore Hline.
  induction Hbefore as [|l rest Hl _ IH].
  - rewrite app_nil_l. cbn [xml_attribute_lines]. now rewrite Hline.
  - change ((l :: rest) ++ line :: after)%list
      with (l :: (rest ++ line :: after))%list.
    cbn [xml_attribute_lines]. now rewrite Hl.
Qed.

End Sidecar.

(** X8.  [_get_xml_attribute] reads an attribute from the first line that
    begins, after white space, with its tag: the lines before it and the
    lines after it make no difference, also when that line raises. *)
Theorem X8_first_tagged_line_decides
  (files : filesystem string) (xml_path text attrib : string)
  (before : list string) (line : string) (after : list string) :
  files xml_path = Some text ->
  Py.readlines text = (before ++ line :: after)%list ->
  Forall (fun l => Py.startswith ("<" ++ attrib ++ ">") (Py.strip l) = false)
         before ->
  Py.startswith ("<" ++ attrib ++ ">") (Py.strip line) = true ->
  _get_xml_attribute files xml_path attrib
  = xml_attribute_lines attrib [line].
Proof.
  intros Hfile Hlines Hbefore Hline. unfold _get_xml_attribute, read.
  rewrite Hfile. cbn [bind]. rewrite Hlines.
  now apply Sidecar.first_tagged_line.
Qed.

(** X8, at a sidecar with two groups. *)
Lemma X8_first_tagged_line_witness :
  _get_xml_attribute
    (fs_write no_files_yet "/tmp/ui/a.jpg.xml"
       ("<package>" ++ nl ++ "  <group>12</group>" ++ nl
        ++ "  <group>99</group>" ++ nl))
    "/tmp/ui/a.jpg.xml" "group"
  = xml_attribute_lines "group" ["  <group>12</group>" ++ nl].
Proof.
  apply (@X8_first_tagged_line_decides
           (fs_write no_files_yet "/tmp/ui/a.jpg.xml"
              ("<package>" ++ nl ++ "  <group>12</group>" ++ nl
               ++ "  <group>99</group>" ++ nl))
           "/tmp/ui/a.jpg.xml"
           ("<package>" ++ nl ++ "  <group>12</group>" ++ nl
            ++ "  <group>99</group>" ++ nl)
           "group" ["<package>" ++ nl] ("  <group>12</group>" ++ nl)
           ["  <group>99</group>" ++ nl]).
  - reflexivity.
  - reflexivity.
  - repeat constructor.
  - reflexivity.
Defined.

(** X9.  A number written between the tags of an attribute, in the form
    [str] prints it and on a line indented by white space, is the value
    that [_get_xml_attribute] returns, if no line before it has the tag.
    The name of the attribute holds no ["<"] and does not begin with
    ["/"]. *)
Theorem X9_tagged_number_is_read_back
  (files : filesystem string) (xml_path text attrib : string)
  (before : list string) (indent rest : string) (n : Z)
  (after : list string) :
  files xml_path = Some text ->
  Py.readlines text
  = (before
     ++ (indent ++ "<" ++ attrib ++ ">" ++ Py.str n
         ++ "</" ++ attrib ++ ">" ++ rest)%string :: after)%list ->
  Forall (fun l => Py.startswith ("<" ++ attrib ++ ">") (Py.strip l) = false)
         before ->
  all_chars Py.isspace indent = true ->
  all_chars (is_not "<") attrib = true ->
  Py.startswith "/" attrib = false ->
  _get_xml_attribute files xml_path attrib = Ok n.
Proof.
  intros Hfile Hlines Hbefore Hindent Hattrib Hslash.
  unfold _get_xml_attribute, read. rewrite Hfile. cbn [bind]. rewrite Hlines.
  rewrite Sidecar.first_tagged_line;
    [ | exact Hbefore | now apply Sidecar.tagged_line_recognised ].
  cbn [xml_attribute_lines].
  rewrite Sidecar.tagged_line_recognised by exact Hindent.
  now apply Sidecar.tagged_line_value.
Qed.

(** X9, at the instance -7 of a sidecar. *)
Lemma X9_tagged_number_witness :
  _get_xml_attribute
    (fs_write no_files_yet "/tmp/ui/a.jpg.xml"
       ("<package>" ++ nl ++ "  <instance>-7</instance>" ++ nl))
    "/tmp/ui/a.jpg.xml" "instance"
  = Ok (-7)%Z.
Proof.
  apply (@X9_tagged_number_is_read_back
           (fs_write no_files_yet "/tmp/ui/a.jpg.xml"
              ("<package>" ++ nl ++ "  <instance>-7</instance>" ++ nl))
           "/tmp/ui/a.jpg.xml"
           ("<package>" ++ nl ++ "  <instance>-7</instance>" ++ nl)
           "instance" ["<package>" ++ nl] "  " nl (-7)%Z []).
  - reflexivity.
  - reflexivity.
  - repeat constructor.
  - reflexivity.
  - reflexivity.
  - reflexivity.
Defined.

(** * Further properties of the archive *)

Module ArchiveMore.
Import Py PyFacts.

Lemma same_slot_slot (a b : dbpf_entry) :
  same_slot a b = true <-> slot a = slot b.
Proof.
  unfold same_slot, slot. rewrite andb_true_iff, !Z.eqb_eq. split.
  - now intros [-> ->].
  - intros [= -> ->]. now split.
Qed.

Lemma existsb_same_slot (e : dbpf_entry) (l : list dbpf_entry) :
  existsb (same_slot e) l = false -> ~ In (slot e) (map slot l).
Proof.
  intros H Hin. apply in_map_iff in Hin as [x [Hx Hin]].
  assert (existsb (same_slot e) l = true); [|congruence].
  apply existsb_exists. exists x. split; [exact Hin|].
  now apply same_slot_slot.
Qed.

(** The resources that are kept have pairwise different pairs, none of
    them a pair seen before. *)
Lemma first_wins_distinct (entries : list dbpf_entry) :
  forall seen,
    NoDup (map slot (first_wins seen entries))
    /\ forall e, In e (first_wins seen entries) ->
                 existsb (same_slot e) seen = false.
Proof.
  induction entries as [|x rest IH]; intros seen; simpl.
  - split; [constructor | easy].
  - destruct (existsb (same_slot x) seen) eqn:E; [apply IH|].
    destruct (IH (seen ++ [x])%list) as [Hnodup Hnew]. split.
    + simpl. constructor; [|exact Hnodup].
      intros Hin. apply in_map_iff in Hin as [y [Hy Hin]].
      specialize (Hnew y Hin). rewrite existsb_app in Hnew.
      apply orb_false_iff in Hnew as [_ Hnew]. simpl in Hnew.
      rewrite orb_false_r in Hnew.
      assert (same_slot y x = true) by now apply same_slot_slot.
      congruence.
    + intros e [<- | Hin]; [exact E|].
      specialize (Hnew e Hin). rewrite existsb_app in Hnew.
      now apply orb_false_iff in Hnew as [Hnew _].
Qed.

(** Every registration either stores a resource or prints a line. *)
Lemma register_counts (e : dbpf_entry) (st : build_state) :
  (List.length (package (register e st))
   + List.length (stdout (register e st)))%nat
  = S (List.length (package st) + List.length (stdout st))%nat
  /\ (List.length (uuids (register e st))
      + List.length (package st))%nat
     = (List.length (uuids st) + List.length (package (register e st)))%nat.
Proof.
  unfold register, add_file_from_path.
  destruct (mem _ _); simpl; rewrite ?length_app; simpl; lia.
Qed.

Lemma registers_counts (entries : list dbpf_entry) :
  forall st,
    (List.length (package (registers entries st))
     + List.length (stdout (registers entries st)))%nat
    = (List.length (package st) + List.length (stdout st)
       + List.length entries)%nat
    /\ (List.length (uuids (registers entries st))
        + List.length (package st))%nat
       = (List.length (uuids st)
          + List.length (package (registers entries st)))%nat.
Proof.
  induction entries as [|x rest IH]; intros st; simpl; [lia|].
  destruct (IH (register x st)) as [H1 H2].
  destruct (register_counts x st) as [H3 H4]. lia.
Qed.

End ArchiveMore.

(** X10.  Two resources have the same key in the duplicate check exactly
    when their groups and their instances are the same: the text of the
    key tells the two numbers apart, negative ones included. *)
Theorem X10_key_tells_pairs_apart (g i g' i' : Z) :
  uuid_of g i = uuid_of g' i' <-> g = g' /\ i = i'.
Proof.
  split.
  - apply Archive.uuid_of_inj.
  - now intros [-> ->].
Qed.

(** X11.  After any sequence of registrations in one build, no two
    resources of the package have the same group and instance, and the list
    of keys is as long as the package. *)
Theorem X11_package_has_distinct_pairs
  (files : filesystem string) (printed : list string)
  (entries : list dbpf_entry) :
  let st := registers entries (opened files printed) in
  NoDup (map slot (package st))
  /\ List.length (uuids st) = List.length (package st).
Proof.
  intros st. split.
  - unfold st.
    rewrite (Archive.registers_package entries
               (Archive.tracks_opened files printed)).
    apply ArchiveMore.first_wins_distinct.
  - destruct (ArchiveMore.registers_counts entries (opened files printed))
      as [_ H].
    fold st in H. simpl in H. lia.
Qed.

(** X12.  Every resource that is registered is either stored or reported:
    the resources in the package and the lines printed about duplicates
    are together as many as the registrations. *)
Theorem X12_stored_or_reported
  (files : filesystem string) (printed : list string)
  (entries : list dbpf_entry) :
  let st := registers entries (opened files printed) in
  (List.length (package st) + List.length (stdout st))%nat
  = (List.length printed + List.length entries)%nat.
Proof.
  intros st.
  destruct (ArchiveMore.registers_counts entries (opened files printed))
    as [H _].
  fold st in H. simpl in H. lia.
Qed.

(** * Further properties of the build *)

Module BuildMore.
Import Py PyFacts.

Lemma fs_write_other {A : Type} (files : filesystem A) (path p : string)
  (data : A) :
  p <> path -> fs_write files path data p = files p.
Proof. intros H. unfold fs_write. apply String.eqb_neq in H. now rewrite H. Qed.

Lemma fs_delete_other {A : Type} (files : filesystem A) (path p : string) :
  p <> path -> fs_delete files path p = files p.
Proof.
  intros H. unfold fs_delete. apply String.eqb_neq in H. now rewrite H.
Qed.

(** The steps before the loop always return: an empty file is at the
    destination, the other files are as they were, the package is empty. *)
Lemma first_steps (props : Properties) (st : build_state) :
  exists st3,
    run [step_remove props; step_create props; step_open] st = Ok st3
    /\ fs st3 (output_path_of props) = Some ""
    /\ (forall p, p <> output_path_of props -> fs st3 p = fs st p)
    /\ package st3 = DBPF_open
    /\ uuids st3 = [].
Proof.
  cbn [run]. unfold step_remove, exists_, os_remove. cbn [fs].
  destruct (fs st (output_path_of props)) as [old|] eqn:E; cbn [bind].
  - eexists. split; [reflexivity|]. cbn [fs package uuids].
    split; [apply Build.fs_write_same|]. split; [|now split].
    intros p Hp. now rewrite fs_write_other, fs_delete_other.
  - eexists. split; [reflexivity|]. cbn [fs package uuids].
    split; [apply Build.fs_write_same|]. split; [|now split].
    intros p Hp. now rewrite fs_write_other.
Qed.

End BuildMore.

(** X13.  A build that returns has written the container of its package at
    the destination, made over the files as they were with an empty file at
    the destination, and has left every other file as it was. *)
Theorem X13_build_writes_only_the_package
  (container : filesystem string -> DBPF -> string)
  (props : Properties) (xml_files : list string) (st st' : build_state) :
  create_dbpf_package container props xml_files st = Ok st' ->
  (forall p, p <> output_path_of props -> fs st' p = fs st p)
  /\ exists files1,
       fs st' (output_path_of props) = Some (container files1 (package st'))
       /\ files1 (output_path_of props) = Some ""
       /\ forall p, p <> output_path_of props -> files1 p = fs st p.
Proof.
  unfold create_dbpf_package, build_steps. intros H.
  rewrite Build.run_app in H.
  destruct (BuildMore.first_steps props st)
    as [st3 [E3 [Hout [Hother _]]]].
  rewrite E3 in H. cbn [bind] in H. rewrite Build.run_app in H.
  destruct (run (map step_sidecar xml_files) st3) as [st4|] eqn:E4;
    cbn [bind] in H; [|discriminate].
  apply Build.run_sidecars_fs in E4.
  cbn [run step_save bind] in H. injection H as <-. cbn [fs package].
  split.
  - intros p Hp. rewrite BuildMore.fs_write_other by exact Hp.
    rewrite E4. now apply Hother.
  - exists (fs st4). split; [apply Build.fs_write_same|].
    rewrite E4. now split.
Qed.

(** X13, at a build without sidecars over the archive of a build before. *)
Lemma X13_build_witness :
  file_after
    (files_of (create_dbpf_package sample_container (settings 2 0) []
                 previous_build)) "/out/FontStyle.ini"
  = fs previous_build "/out/FontStyle.ini".
Proof.
  refine (proj1 (@X13_build_writes_only_the_package sample_container
                   (settings 2 0) [] previous_build _ eq_refl)
            "/out/FontStyle.ini" _).
  intros E; vm_compute in E; discriminate.
Defined.


(** * Further properties of the geometry *)

Module GeometryMore.
Import Py PyFacts.

(** [int] raises nothing but [ValueError]. *)
Lemma int_exn (s : string) (e : exn) : int s = Raise e -> e = ValueError.
Proof.
  unfold int.
  repeat match goal with
         | |- context [match ?x with _ => _ end] => destruct x; simpl
         end; congruence.
Qed.

Lemma scale_numbers_exn (props : Properties) (numbers : list string) :
  forall new_values e,
    scale_numbers props numbers new_values = Raise e -> e = ValueError.
Proof.
  induction numbers as [|number rest IH]; intros new_values e H;
    cbn [scale_numbers] in H; [discriminate|].
  destruct (int number) as [n|e'] eqn:E; cbn [bind] in H.
  - now apply IH in H.
  - injection H as <-. now apply int_exn in E.
Qed.

(** The indices of a part are always in range: a part raises nothing but
    the [ValueError] of a number. *)
Lemma replace_coord_part_exn (props : Properties) (name part : string)
  (e : exn) :
  replace_coord_part props name part = Raise e -> e = ValueError.
Proof.
  unfold replace_coord_part.
  destruct (startswith "(" part) eqn:Hparen; cbn [negb]; [|discriminate].
  destruct (Geometry.values_of_ok _ Hparen) as [values ->]. cbn [bind].
  destruct (scale_numbers props (split "," values) []) eqn:E; cbn [bind];
    [discriminate|].
  intros [= <-]. now apply scale_numbers_exn in E.
Qed.

Lemma replace_coord_parts_exn (props : Properties) (name : string)
  (parts : list string) :
  forall output e,
    replace_coord_parts props name parts output = Raise e -> e = ValueError.
Proof.
  induction parts as [|part rest IH]; intros output e H;
    cbn [replace_coord_parts] in H; [discriminate|].
  destruct (replace_coord_part props name part) as [p|e'] eqn:E;
    cbn [bind] in H.
  - now apply IH in H.
  - injection H as <-. now apply replace_coord_part_exn in E.
Qed.

Lemma replace_coord_attribute_exn (props : Properties) (data name : string)
  (e : exn) :
  _replace_coord_attribute props data name = Raise e -> e = ValueError.
Proof.
  unfold _replace_coord_attribute.
  destruct (replace_coord_parts props name (split (name ++ "=") data) [])
    eqn:E; cbn [bind]; [discriminate|].
  intros [= <-]. now apply replace_coord_parts_exn in E.
Qed.

(** A part that raises makes the loop raise. *)
Lemma replace_coord_parts_raise (props : Properties) (name : string)
  (parts : list string) :
  forall output part,
    In part parts ->
    replace_coord_part props name part = Raise ValueError ->
    replace_coord_parts props name parts output = Raise ValueError.
Proof.
  induction parts as [|p rest IH]; intros output part Hin Hraise; [easy|].
  cbn [replace_coord_parts].
  destruct (replace_coord_part props name p) as [new_part|e] eqn:E;
    cbn [bind].
  - destruct Hin as [-> | Hin]; [congruence|]. now apply IH with part.
  - f_equal. now apply replace_coord_part_exn in E.
Qed.

(** A part that begins with an empty tuple. *)
Lemma empty_tuple_raises (props : Properties) (name rest : string) :
  replace_coord_part props name ("()" ++ rest) = Raise ValueError.
Proof.
  unfold replace_coord_part.
  change (startswith "(" ("()" ++ rest)) with true. cbn [negb].
  unfold values_of, split.
  change ("()" ++ rest) with ("(" ++ String ")" rest).
  rewrite split_go_sep by discriminate.
  unfold item at 1. cbn [nth_error].
  rewrite split_go_char by reflexivity.
  destruct (split_go_head "(" rest 0 ("" ++ ")")) as [h [t ->]].
  cbn [bind].
  change (("" ++ ")") ++ h) with (")" ++ h).
  rewrite split_go_sep by discriminate.
  reflexivity.
Qed.

(** [str] prints at least one character. *)
Lemma str_nonempty (n : Z) : str n <> "".
Proof.
  intros E. pose proof (int_str n) as H. rewrite E in H. discriminate.
Qed.

(** [str] prints no character that is neither a digit nor the minus
    sign. *)
Lemma str_is_not (c : ascii) (n : Z) :
  is_digit_or_minus c = false -> all_chars (is_not c) (str n) = true.
Proof.
  intros Hc. apply all_chars_impl with (2 := str_chars n).
  intros x Hx. unfold is_not. apply negb_true_iff.
  destruct (Ascii.eqb_spec x c) as [->|]; [congruence | reflexivity].
Qed.

Lemma join_is_not (c : ascii) (sep : string) (parts : list string) :
  all_chars (is_not c) sep = true ->
  Forall (fun p => all_chars (is_not c) p = true) parts ->
  all_chars (is_not c) (join sep parts) = true.
Proof.
  intros Hsep. induction 1 as [|p ps Hp _ IH]; [reflexivity|].
  destruct ps as [|q ps]; [exact Hp|].
  rewrite join_cons by discriminate.
  now rewrite !all_chars_app, Hp, Hsep, IH.
Qed.

(** The text of a tuple holds digits, minus signs and commas only. *)
Lemma tuple_text_is_not (c : ascii) (numbers : list Z) :
  is_digit_or_minus c = false ->
  Ascii.eqb "," c = false ->
  all_chars (is_not c) (tuple_text numbers) = true.
Proof.
  intros Hc Hcomma. unfold tuple_text. apply join_is_not.
  - simpl. unfold is_not. now rewrite Hcomma.
  - apply Forall_forall. intros p Hp.
    apply in_map_iff in Hp as [n [<- _]]. now apply str_is_not.
Qed.

Lemma tuple_text_nonempty (numbers : list Z) :
  numbers <> [] -> tuple_text numbers <> "".
Proof.
  destruct numbers as [|n rest]; [congruence|]. intros _.
  unfold tuple_text. pose proof (str_nonempty n) as Hn.
  cbn [map]. destruct (map str rest); cbn [join]; [exact Hn|].
  destruct (str n); [congruence | discriminate].
Qed.

(** A text does not begin a text whose first character it does not
    hold. *)
Lemma startswith_absent_first (c : ascii) (v x : string) :
  all_chars (is_not c) v = true ->
  v <> "" ->
  startswith v (String c x) = false.
Proof.
  destruct v as [|d v]; [congruence|]. intros H _.
  simpl in H. apply andb_true_iff in H as [Hd _].
  unfold is_not in Hd. apply negb_true_iff in Hd.
  simpl. now rewrite Hd.
Qed.

(** The numbers of a tuple are split at the commas. *)
Lemma split_tuple_text (numbers : list Z) :
  numbers <> [] -> split "," (tuple_text numbers) = map str numbers.
Proof.
  intros Hne. unfold tuple_text.
  apply (@Font.split_join_char "," (map str numbers)).
  - destruct numbers; [congruence | discriminate].
  - apply Forall_forall. intros p Hp.
    apply in_map_iff in Hp as [n [<- _]]. now apply str_is_not.
Qed.

Lemma scale_numbers_map (props : Properties) (numbers : list Z) :
  scale_numbers props (map str numbers) []
  = Ok (map str (scaled props numbers)).
Proof.
  induction numbers as [|n rest IH]; [reflexivity|].
  cbn [map scale_numbers]. rewrite int_str. cbn [bind].
  rewrite Geometry.scale_numbers_app, IH. reflexivity.
Qed.

(** The text between the parentheses of a tuple. *)
Lemma values_of_tuple (numbers : list Z) (post : string) :
  values_of ("(" ++ tuple_text numbers ++ ")" ++ post)
  = Ok (tuple_text numbers).
Proof.
  unfold values_of, split.
  rewrite split_go_sep by discriminate.
  unfold item at 1. cbn [nth_error].
  rewrite (Sidecar.split_go_absent_char "(" "")
    by now apply tuple_text_is_not.
  change (")" ++ post) with (String ")" post).
  rewrite split_go_char by reflexivity.
  destruct (split_go_head "(" post 0
              (("" ++ tuple_text numbers) ++ ")")) as [h [t ->]].
  cbn [bind].
  change (("" ++ tuple_text numbers) ++ ")")
    with (tuple_text numbers ++ ")").
  rewrite append_assoc.
  rewrite split_go_app_sep; [ reflexivity | discriminate | | ].
  - apply contains_absent_char. now apply tuple_text_is_not.
  - intros k Hk. simpl in Hk. lia.
Qed.

(** The tuple is replaced where it stands. *)
Lemma replace_tuple (numbers : list Z) (new post : string) :
  numbers <> [] ->
  contains (tuple_text numbers) post = false ->
  replace (tuple_text numbers) new ("(" ++ tuple_text numbers ++ ")" ++ post)
  = "(" ++ new ++ ")" ++ post.
Proof.
  intros Hne Hpost. pose proof (tuple_text_nonempty Hne) as Hv.
  unfold replace. destruct (tuple_text numbers) as [|v0 v] eqn:Ev;
    [congruence|]. rewrite <- Ev in *.
  change ("(" ++ tuple_text numbers ++ ")" ++ post)
    with (String "(" (tuple_text numbers ++ String ")" post)).
  rewrite replace_go_char
    by (apply startswith_absent_first;
        [now apply tuple_text_is_not | exact Hv]).
  rewrite replace_go_old by exact Hv.
  rewrite replace_go_char
    by (apply startswith_absent_first;
        [now apply tuple_text_is_not | exact Hv]).
  now rewrite replace_go_absent.
Qed.

(** One part that begins with a tuple of numbers. *)
Lemma replace_coord_part_tuple (props : Properties) (name : string)
  (numbers : list Z) (post : string) :
  numbers <> [] ->
  contains (tuple_text numbers) post = false ->
  replace_coord_part props name ("(" ++ tuple_text numbers ++ ")" ++ post)
  = Ok (name ++ "=" ++ "(" ++ tuple_text (scaled props numbers)
        ++ ")" ++ post).
Proof.
  intros Hne Hpost. unfold replace_coord_part.
  change (startswith "(" ("(" ++ tuple_text numbers ++ ")" ++ post))
    with true.
  cbn [negb]. rewrite values_of_tuple. cbn [bind].
  rewrite split_tuple_text by exact Hne.
  rewrite scale_numbers_map. cbn [bind].
  fold (tuple_text (scaled props numbers)).
  now rewrite replace_tuple.
Qed.

(** The whole attribute, for a name whose separator begins with a
    character [c] that no tuple holds and that has no proper suffix at its
    own head. *)
Lemma replace_coord_attribute_tuple (props : Properties) (name : string)
  (c : ascii) (sep' : string) (pre : string) (numbers : list Z)
  (post : string) :
  name ++ "=" = String c sep' ->
  is_digit_or_minus c = false ->
  Ascii.eqb "," c = false ->
  is_not c "(" = true ->
  is_not c ")" = true ->
  (forall r k,
      (1 <= k < length (name ++ "="))%nat ->
      startswith (drop k (name ++ "=")) ((name ++ "=") ++ r) = false) ->
  numbers <> [] ->
  contains (name ++ "=") pre = false ->
  contains (name ++ "=") post = false ->
  startswith "(" pre = false ->
  contains (tuple_text numbers) post = false ->
  _replace_coord_attribute props
    (pre ++ (name ++ "=") ++ "(" ++ tuple_text numbers ++ ")" ++ post) name
  = Ok (pre ++ (name ++ "=") ++ "(" ++ tuple_text (scaled props numbers)
        ++ ")" ++ post).
Proof.
  intros Hsep Hc Hcomma Hopen Hclose Hsuffix Hne Hpre Hpost Hparen Hval.
  unfold _replace_coord_attribute, split.
  rewrite split_go_app_sep;
    [ | rewrite Hsep; discriminate | exact Hpre | apply Hsuffix ].
  rewrite split_go_no_sep.
  2:{ assert (E : "(" ++ tuple_text numbers ++ ")" ++ post
                  = ("(" ++ tuple_text numbers ++ ")") ++ post)
        by (simpl; now rewrite append_assoc).
      rewrite E, Hsep, contains_app_absent_char.
      - now rewrite <- Hsep.
      - cbn [append all_chars]. rewrite Hopen, all_chars_app.
        rewrite tuple_text_is_not by assumption.
        cbn [all_chars andb]. now rewrite Hclose. }
  change ("" ++ pre) with pre.
  change ("" ++ "(" ++ tuple_text numbers ++ ")" ++ post)
    with ("(" ++ tuple_text numbers ++ ")" ++ post).
  cbn [replace_coord_parts].
  unfold replace_coord_part at 1. rewrite Hparen. cbn [negb bind].
  rewrite replace_coord_part_tuple by assumption.
  cbn [bind]. f_equal.
  change ([] ++ [pre])%list with [pre].
  cbn [app join]. cbn [append]. f_equal.
  now rewrite append_assoc.
Qed.

End GeometryMore.

(** X16.  A tuple of numbers in the form [str] prints them, after the only
    [area=] (or [gutters=]) of a text, is rewritten to the tuple of the
    numbers times the factor, and the text before and after it is returned
    as it is, if the text does not begin with ["("] and the rest does not
    repeat the text of the tuple. *)
Theorem X16_tuple_is_scaled
  (props : Properties) (name pre : string) (numbers : list Z)
  (post : string) :
  name = "area" \/ name = "gutters" ->
  numbers <> [] ->
  Py.contains (name ++ "=") pre = false ->
  Py.contains (name ++ "=") post = false ->
  Py.startswith "(" pre = false ->
  Py.contains (tuple_text numbers) post = false ->
  _replace_coord_attribute props
    (pre ++ (name ++ "=") ++ "(" ++ tuple_text numbers ++ ")" ++ post) name
  = Ok (pre ++ (name ++ "=") ++ "(" ++ tuple_text (scaled props numbers)
        ++ ")" ++ post).
Proof.
  intros [-> | ->] Hne Hpre Hpost Hparen Hval.
  - apply (@GeometryMore.replace_coord_attribute_tuple props "area"
             "a" "rea="); try assumption; try reflexivity.
    intros r. PyFacts.no_proper_suffix.
  - apply (@GeometryMore.replace_coord_attribute_tuple props "gutters"
             "g" "utters="); try assumption; try reflexivity.
    intros r. PyFacts.no_proper_suffix.
Qed.

(** X16, at gutters of 3 and -4 pixels with the factor 3. *)
Lemma X16_tuple_witness :
  _replace_coord_attribute (settings 3 0)
    ("<LEGACY " ++ ("gutters" ++ "=") ++ "(" ++ tuple_text [3; -4]%Z ++ ")"
     ++ " >") "gutters"
  = Ok ("<LEGACY " ++ ("gutters" ++ "=") ++ "("
        ++ tuple_text (scaled (settings 3 0) [3; -4]%Z) ++ ")" ++ " >").
Proof.
  apply X16_tuple_is_scaled; try reflexivity; [now right | discriminate].
Defined.

(** X15.  A script without [area=] and without [gutters=], that does not
    begin with ["("], is returned as it is, whatever the factor. *)
Theorem X15_script_without_geometry_unchanged
  (props : Properties) (data : string) :
  Py.contains "area=" data = false ->
  Py.contains "gutters=" data = false ->
  Py.startswith "(" data = false ->
  upscale_uiscript props data = Ok data.
Proof.
  intros Harea Hgutters Hparen. unfold upscale_uiscript.
  rewrite Geometry.replace_coord_attribute_absent by assumption.
  cbn [bind]. now apply Geometry.replace_coord_attribute_absent.
Qed.

(** X15, at a line with a caption only. *)
Lemma X15_script_witness :
  upscale_uiscript (settings 3 0) "<LEGACY clsid=GZWinText caption=OK >"
  = Ok "<LEGACY clsid=GZWinText caption=OK >".
Proof.
  apply X15_script_without_geometry_unchanged; reflexivity.
Defined.

(** X17.  An empty tuple after the first [area=] or [gutters=] of a text
    makes the rewriting of that attribute raise [ValueError]. *)
Theorem X17_empty_tuple_raises
  (props : Properties) (name pre post : string) :
  name = "area" \/ name = "gutters" ->
  Py.contains (name ++ "=") pre = false ->
  _replace_coord_attribute props (pre ++ (name ++ "=") ++ "()" ++ post) name
  = Raise ValueError.
Proof.
  intros Hname Hpre. unfold _replace_coord_attribute, Py.split.
  rewrite PyFacts.split_go_app_sep;
    [ | destruct Hname as [-> | ->]; discriminate | exact Hpre | ].
  2:{ destruct Hname as [-> | ->]; PyFacts.no_proper_suffix. }
  assert (Hsecond : exists h t,
             Py.split_go (name ++ "=") 0 "" ("()" ++ post)
             = ("()" ++ h) :: t).
  { destruct Hname as [-> | ->].
    - change ("area" ++ "=") with (String "a" "rea=").
      rewrite (Sidecar.split_go_absent_char "a" "rea=" "()" post eq_refl).
      apply PyFacts.split_go_head.
    - change ("gutters" ++ "=") with (String "g" "utters=").
      rewrite (Sidecar.split_go_absent_char "g" "utters=" "()" post eq_refl).
      apply PyFacts.split_go_head. }
  destruct Hsecond as [h [t ->]].
  rewrite (GeometryMore.replace_coord_parts_raise props name _ []
             ("()" ++ h)).
  - reflexivity.
  - right. now left.
  - apply GeometryMore.empty_tuple_raises.
Qed.

(** X17, at an area without numbers. *)
Lemma X17_empty_tuple_witness :
  _replace_coord_attribute (settings 2 0)
    ("<LEGACY " ++ ("area" ++ "=") ++ "()" ++ " >") "area"
  = Raise ValueError.
Proof.
  apply X17_empty_tuple_raises; [now left | reflexivity].
Defined.

(** X18.  The rewriting of a script raises nothing but [ValueError]: the
    indexing of the pieces between the parentheses is always in range. *)
Theorem X18_script_raises_only_value_error
  (props : Properties) (data : string) (e : exn) :
  upscale_uiscript props data = Raise e -> e = ValueError.
Proof.
  unfold upscale_uiscript.
  destruct (_replace_coord_attribute props data "area") as [data1|e1] eqn:E1;
    cbn [bind].
  - apply GeometryMore.replace_coord_attribute_exn.
  - intros [= <-]. now apply GeometryMore.replace_coord_attribute_exn in E1.
Qed.

(** X18, at an area with names in place of numbers. *)
Lemma X18_script_witness : ValueError = ValueError.
Proof.
  exact (@X18_script_raises_only_value_error (settings 2 0)
           "<LEGACY area=(left,top) >" ValueError eq_refl).
Defined.

(** * Further properties of the resampling *)

Module ResamplerMore.
Import Py PyFacts.

Lemma filter_all {A : Type} (f : A -> bool) (l : list A) :
  Forall (fun x => f x = true) l -> filter f l = l.
Proof.
  induction 1 as [|x l Hx _ IH]; [reflexivity|].
  simpl. now rewrite Hx, IH.
Qed.

Lemma filter_none {A : Type} (f : A -> bool) (l : list A) :
  Forall (fun x => f x = false) l -> filter f l = [].
Proof.
  induction 1 as [|x l Hx _ IH]; [reflexivity|].
  simpl. now rewrite Hx, IH.
Qed.

Lemma has_type_unknown_only (files : filesystem bytes) (t : file_type)
  (p : string) :
  has_type files unknown p = true -> t <> unknown -> has_type files t p = false.
Proof.
  unfold has_type. destruct (files p) as [data|]; [|discriminate].
  intros H Ht. apply Buckets.file_type_eqb_eq in H. rewrite H.
  now destruct t.
Qed.

Lemma bind_ok {A : Type} (r : result A) : (x <- r ;; Ok x) = r.
Proof. now destruct r. Qed.

End ResamplerMore.

(** X19.  When every listed file is of unknown type, the resampler is not
    run: [upscale_graphics] is the copying of the files to the temporary
    directory, whatever the external command would do. *)
Theorem X19_unknown_files_bypass_the_resampler
  (os_system : string -> filesystem bytes -> filesystem bytes * Z)
  (props : Properties) (file_list : list string) (files : filesystem bytes) :
  Forall (fun p => has_type files unknown p = true) file_list ->
  upscale_graphics os_system props file_list files
  = copy_unknown props file_list files.
Proof.
  intros Hunknown. unfold upscale_graphics.
  assert (Hthere : Forall (fun p => files p <> None) file_list).
  { apply Forall_impl with (2 := Hunknown). intros p. unfold has_type.
    now destruct (files p). }
  destruct (@Buckets.filter_files_loop_ok files file_list no_files Hthere)
    as [d Hd].
  unfold filter_files_by_type. rewrite Hd. cbn [bind].
  destruct (Buckets.filter_files_loop_buckets _ _ _ Hd) as [Hb _].
  assert (Hnone : forall t, t <> unknown -> bucket t d = []).
  { intros t Ht. rewrite Hb. destruct t; try congruence;
      apply ResamplerMore.filter_none;
      apply Forall_impl with (2 := Hunknown); intros p Hp;
      now apply ResamplerMore.has_type_unknown_only. }
  assert (Hall : ft_unknown d = file_list).
  { change (ft_unknown d) with (bucket unknown d). rewrite Hb.
    now apply ResamplerMore.filter_all. }
  rewrite Hall.
  destruct (copy_unknown props file_list files) as [files1|]; cbn [bind];
    [|reflexivity].
  cbn [upscale_graphics_keys].
  rewrite (Hnone bmp), (Hnone jpg), (Hnone png), (Hnone tga)
    by discriminate.
  reflexivity.
Qed.

(** X19, at a directory with one file that is no graphic. *)
Lemma X19_unknown_files_witness :
  upscale_graphics failing_convert (settings 2 0) ["/in/readme.jpg"]
    (fs_write (fun _ => None) "/in/readme.jpg" [Byte.x48; Byte.x69])
  = copy_unknown (settings 2 0) ["/in/readme.jpg"]
      (fs_write (fun _ => None) "/in/readme.jpg" [Byte.x48; Byte.x69]).
Proof.
  apply X19_unknown_files_bypass_the_resampler.
  repeat constructor.
Defined.

(** X20.  A conversion that returns has left the input file as it was,
    when the external command leaves it and its path is neither the staged
    output nor the final name. *)
Theorem X20_conversion_leaves_the_input
  (os_system : string -> filesystem bytes -> filesystem bytes * Z)
  (props : Properties) (ext path : string)
  (files files' : filesystem bytes) :
  let tempin := tempin_of props ext path in
  let tempout := tempout_of ext tempin in
  upscale_graphic os_system props ext path files = Ok files' ->
  (forall command fs0, fst (os_system command fs0) path = fs0 path) ->
  path <> tempout ->
  path <> output_of ext tempout ->
  files' path = files path.
Proof.
  intros tempin tempout H Htool Hout Hfinal.
  unfold upscale_graphic, shutil_copy in H. fold tempin tempout in H.
  destruct (files path) as [data|] eqn:Epath; [|discriminate].
  destruct (String.eqb path tempin) eqn:Ein; [discriminate|].
  cbn [bind] in H. apply String.eqb_neq in Ein.
  set (fs2 := fst (os_system (convert_command props tempin tempout)
                     (fs_write files tempin data))) in H.
  assert (H2 : fs2 path = Some data).
  { unfold fs2. rewrite Htool, BuildMore.fs_write_other by exact Ein.
    exact Epath. }
  unfold os_remove in H. destruct (fs2 tempin); [|discriminate].
  cbn [bind] in H. unfold os_rename in H.
  destruct (fs_delete fs2 tempin tempout) as [result|]; [|discriminate].
  destruct (String.eqb tempout (output_of ext tempout));
    injection H as <-.
  - now rewrite BuildMore.fs_delete_other.
  - now rewrite BuildMore.fs_write_other, !BuildMore.fs_delete_other.
Qed.

(** X21.  A conversion that returns has removed its staged copy, when the
    final name is not the name of the staged copy. *)
Theorem X21_conversion_removes_the_staged_copy
  (os_system : string -> filesystem bytes -> filesystem bytes * Z)
  (props : Properties) (ext path : string)
  (files files' : filesystem bytes) :
  let tempin := tempin_of props ext path in
  let tempout := tempout_of ext tempin in
  upscale_graphic os_system props ext path files = Ok files' ->
  tempin <> output_of ext tempout ->
  files' tempin = None.
Proof.
  intros tempin tempout H Hfinal.
  unfold upscale_graphic in H. fold tempin tempout in H.
  destruct (shutil_copy files path tempin) as [fs1|]; [|discriminate].
  cbn [bind] in H.
  set (fs2 := fst (os_system (convert_command props tempin tempout) fs1))
    in H.
  unfold os_remove in H. destruct (fs2 tempin); [|discriminate].
  cbn [bind] in H. unfold os_rename in H.
  destruct (fs_delete fs2 tempin tempout) as [result|] eqn:Eout;
    [|discriminate].
  destruct (String.eqb tempout (output_of ext tempout));
    injection H as <-.
  - apply Build.fs_delete_same.
  - rewrite BuildMore.fs_write_other by exact Hfinal.
    destruct (String.eqb_spec tempin tempout) as [E|N].
    + rewrite <- E. apply Build.fs_delete_same.
    + rewrite BuildMore.fs_delete_other by exact N.
      apply Build.fs_delete_same.
Qed.

(** X20, at the PNG file of the sample directory. *)
Lemma X20_conversion_witness :
  file_after
    (upscale_graphic failing_convert (settings 2 0) "png" "/in/a.jpg" one_png)
    "/in/a.jpg"
  = one_png "/in/a.jpg".
Proof.
  refine (@X20_conversion_leaves_the_input failing_convert (settings 2 0)
            "png" "/in/a.jpg" one_png _ eq_refl (fun _ _ => eq_refl) _ _);
    intros E; vm_compute in E; discriminate.
Defined.

(** X21, at the PNG file of the sample directory. *)
Lemma X21_conversion_witness :
  file_after
    (upscale_graphic failing_convert (settings 2 0) "png" "/in/a.jpg" one_png)
    "/tmp/ui/a.tmp.png"
  = None.
Proof.
  refine (@X21_conversion_removes_the_staged_copy failing_convert
            (settings 2 0) "png" "/in/a.jpg" one_png _ eq_refl _).
  intros E; vm_compute in E; discriminate.
Defined.

(** * Further properties of the loop over the scripts *)

Module Scripts.
Import Py PyFacts.

(** One script writes its output path and nothing else. *)
Lemma upscale_uiscript_file_other (props : Properties) (path : string)
  (files files' : filesystem script) (p : string) :
  upscale_uiscript_file props path files = Ok files' ->
  p <> script_output_path props path ->
  files' p = files p.
Proof.
  unfold upscale_uiscript_file, read, shutil_copy. intros H Hp.
  destruct (files path) as [[data|raw]|]; cbn [bind] in H; [| |discriminate].
  - destruct (upscale_uiscript props data); cbn [bind] in H; [|discriminate].
    injection H as <-. now apply BuildMore.fs_write_other.
  - destruct (String.eqb path (script_output_path props path));
      [discriminate|].
    injection H as <-. now apply BuildMore.fs_write_other.
Qed.

Lemma upscale_uiscripts_other (props : Properties) (file_list : list string) :
  forall files files' p,
    upscale_uiscripts props file_list files = Ok files' ->
    (forall q, In q file_list -> p <> script_output_path props q) ->
    files' p = files p.
Proof.
  induction file_list as [|path rest IH]; intros files files' p H Hp;
    cbn [upscale_uiscripts] in H.
  - now injection H as <-.
  - destruct (upscale_uiscript_file props path files) as [files1|] eqn:E;
      cbn [bind] in H; [|discriminate].
    rewrite (IH _ _ _ H) by (intros q Hq; apply Hp; now right).
    apply (upscale_uiscript_file_other _ _ _ E). apply Hp. now left.
Qed.

(** A script that does not decode and whose loop body returns has been
    copied. *)
Lemma upscale_uiscript_file_undecodable (props : Properties) (path : string)
  (files files' : filesystem script) (raw : bytes) :
  files path = Some (Undecodable raw) ->
  upscale_uiscript_file props path files = Ok files' ->
  files' (script_output_path props path) = Some (Undecodable raw).
Proof.
  intros Hfile H. unfold upscale_uiscript_file, read, shutil_copy in H.
  rewrite Hfile in H. cbn [bind] in H.
  destruct (String.eqb path (script_output_path props path));
    [discriminate|].
  injection H as <-. apply Build.fs_write_same.
Qed.

(** The scripts that do not decode are at their output paths after the
    loop. *)
Lemma upscale_uiscripts_undecodable (props : Properties)
  (file_list : list string) :
  forall files files',
    upscale_uiscripts props file_list files = Ok files' ->
    (forall p q, In p file_list -> In q file_list ->
                 script_output_path props p <> q) ->
    NoDup (map (script_output_path props) file_list) ->
    forall p raw,
      In p file_list ->
      files p = Some (Undecodable raw) ->
      files' (script_output_path props p) = Some (Undecodable raw).
Proof.
  induction file_list as [|path rest IH];
    intros files files' H Hapart Hnodup p raw Hin Hfile; [easy|].
  cbn [upscale_uiscripts] in H.
  destruct (upscale_uiscript_file props path files) as [files1|] eqn:E;
    cbn [bind] in H; [|discriminate].
  inversion Hnodup as [|? ? Hnotin Hnodup']; subst.
  destruct Hin as [<- | Hin].
  - rewrite (upscale_uiscripts_other _ _ _ H).
    + now apply (upscale_uiscript_file_undecodable _ _ _ Hfile E).
    + intros r Hr Eq. apply Hnotin. rewrite Eq. now apply in_map.
  - apply (IH files1 files' H); try assumption.
    + intros q r Hq Hr. apply Hapart; now right.
    + rewrite (upscale_uiscript_file_other _ _ _ E); [exact Hfile|].
      intros Eq. apply (Hapart path p); [now left | now right | now symmetry].
Qed.

End Scripts.

(** X22.  The loop over the scripts writes under the output paths of the
    listed scripts only: when it returns, every other file is as it
    was. *)
Theorem X22_scripts_write_only_their_outputs
  (props : Properties) (file_list : list string)
  (files files' : filesystem script) (p : string) :
  upscale_uiscripts props file_list files = Ok files' ->
  (forall q, In q file_list -> p <> script_output_path props q) ->
  files' p = files p.
Proof. apply Scripts.upscale_uiscripts_other. Qed.

(** X22, at the two scripts of the sample directory. *)
Lemma X22_scripts_witness :
  file_after
    (upscale_uiscripts (settings 2 0) ["/in/a.uiScript"; "/in/b.uiScript"]
       two_scripts) "/in/a.uiScript"
  = two_scripts "/in/a.uiScript".
Proof.
  refine (@X22_scripts_write_only_their_outputs (settings 2 0)
            ["/in/a.uiScript"; "/in/b.uiScript"] two_scripts _
            "/in/a.uiScript" eq_refl _).
  intros q [<- | [<- | []]] E; vm_compute in E; discriminate.
Defined.

(** X23.  A script that does not decode is copied as it is: when the loop
    over the scripts returns, no output path is a listed path and no two
    listed scripts have the same output path, the output path of every
    listed script that does not decode holds the bytes of that script. *)
Theorem X23_undecodable_scripts_are_copied
  (props : Properties) (file_list : list string)
  (files files' : filesystem script) (p : string) (raw : bytes) :
  upscale_uiscripts props file_list files = Ok files' ->
  (forall q r, In q file_list -> In r file_list ->
               script_output_path props q <> r) ->
  NoDup (map (script_output_path props) file_list) ->
  In p file_list ->
  files p = Some (Undecodable raw) ->
  files' (script_output_path props p) = Some (Undecodable raw).
Proof.
  intros H Hapart Hnodup Hin Hfile.
  exact (@Scripts.upscale_uiscripts_undecodable props file_list files files'
           H Hapart Hnodup p raw Hin Hfile).
Qed.

(** X23, at the two scripts of the sample directory. *)
Lemma X23_undecodable_scripts_witness :
  file_after
    (upscale_uiscripts (settings 2 0) ["/in/a.uiScript"; "/in/b.uiScript"]
       two_scripts) "/tmp/ui/a.uiScript"
  = Some (Undecodable [Byte.xff]).
Proof.
  refine (@X23_undecodable_scripts_are_copied (settings 2 0)
            ["/in/a.uiScript"; "/in/b.uiScript"] two_scripts _
            "/in/a.uiScript" [Byte.xff] eq_refl _ _ _ eq_refl).
  - intros q r [<- | [<- | []]] [<- | [<- | []]] E;
      vm_compute in E; discriminate.
  - repeat constructor; simpl; intros H;
      repeat (destruct H as [H|H]; [vm_compute in H; discriminate|]);
      exact H.
  - now left.
Defined.

(** * Further properties of the names of the graphics *)

Module Names.
Import Py PyFacts.

(** Characters that cannot begin [old] are kept. *)
Lemma replace_go_absent_char (c : ascii) (old new m s : string) :
  all_chars (is_not c) m = true ->
  replace_go (String c old) new 0 (m ++ s)
  = m ++ replace_go (String c old) new 0 s.
Proof.
  induction m as [|d m IH]; intros H; [reflexivity|].
  simpl in H. apply andb_true_iff in H as [Hd Hm].
  change (String d m ++ s) with (String d (m ++ s)).
  rewrite replace_go_char.
  - rewrite IH by exact Hm. reflexivity.
  - simpl. unfold is_not in Hd. apply negb_true_iff in Hd.
    now rewrite Ascii.eqb_sym, Hd.
Qed.

(** An ending that begins with a character the rest does not hold is
    replaced where it stands. *)
Lemma replace_ending (c : ascii) (old new base : string) :
  all_chars (is_not c) base = true ->
  replace (String c old) new (base ++ String c old) = base ++ new.
Proof.
  intros H. unfold replace. rewrite replace_go_absent_char by exact H.
  f_equal.
  rewrite <- (append_nil_r (String c old)) at 2.
  rewrite replace_go_old by discriminate. simpl. apply append_nil_r.
Qed.

End Names.

(** X24.  A graphic keeps its name: when the path of the file under the
    temporary directory is [base ++ ".jpg"] with no other dot in it, the
    staged copy is [base ++ ".tmp." ++ ext], the output of the external
    command is [base ++ "." ++ ext], and the final name is [base ++ ".jpg"]
    again. *)
Theorem X24_graphic_keeps_its_name
  (props : Properties) (t : file_type) (path base : string) :
  Py.replace (INPUT_DIR props) (TEMP_DIR props) path = base ++ ".jpg" ->
  all_chars (is_not ".") base = true ->
  let tempin := tempin_of props (ext_of t) path in
  let tempout := tempout_of (ext_of t) tempin in
  tempin = base ++ ".tmp." ++ ext_of t
  /\ tempout = base ++ "." ++ ext_of t
  /\ output_of (ext_of t) tempout = base ++ ".jpg".
Proof.
  intros Hpath Hbase tempin tempout.
  assert (Hin : tempin = base ++ ".tmp." ++ ext_of t).
  { unfold tempin, tempin_of. rewrite Hpath.
    apply (Names.replace_ending "." "jpg" _ base Hbase). }
  assert (Hout : tempout = base ++ "." ++ ext_of t).
  { unfold tempout, tempout_of. rewrite Hin.
    destruct t;
      apply (Names.replace_ending "." _ _ base Hbase). }
  split; [exact Hin|]. split; [exact Hout|].
  unfold output_of. rewrite Hout.
  destruct t; apply (Names.replace_ending "." _ _ base Hbase).
Qed.

(** X24, at a Targa file under the input directory. *)
Lemma X24_graphic_name_witness :
  tempin_of (settings 2 0) "tga" "/in/0x1/logo.jpg"
  = "/tmp/ui/0x1/logo" ++ ".tmp." ++ "tga"
  /\ tempout_of "tga" (tempin_of (settings 2 0) "tga" "/in/0x1/logo.jpg")
     = "/tmp/ui/0x1/logo" ++ "." ++ "tga"
  /\ output_of "tga"
       (tempout_of "tga" (tempin_of (settings 2 0) "tga" "/in/0x1/logo.jpg"))
     = "/tmp/ui/0x1/logo" ++ ".jpg".
Proof.
  apply (@X24_graphic_keeps_its_name (settings 2 0) tga "/in/0x1/logo.jpg"
           "/tmp/ui/0x1/logo"); reflexivity.
Defined.
